(** * The server-reflection session of node-grpc-server (src/index.js)

    A shallow embedding of the reflection part of [start]: the two arrays
    [services] and [fileDescriptorProtos] filled by [addReflectedService],
    and the three stream listeners installed by [ServerReflectionInfo].

    JavaScript values are modelled as follows.
    - a string is a [string]; a property that may be [undefined] is an
      [option];
    - a [Buffer] is a list of bytes;
    - [call.write], [call.end] and [console.log] are recorded, in the order
      they happen, in a trace of effects; a thrown exception ends the
      computation and keeps the trace produced so far;
    - [descriptorProto.lookupType('google.protobuf.FileDescriptorProto').decode]
      belongs to protobufjs: it is a section variable, [None] standing for a
      thrown decoding error. *)

From Stdlib Require Import List String Ascii Bool Arith NArith ZArith Lia.
From Stdlib.Strings Require Import Byte.
Import ListNotations.
Local Open Scope string_scope.
Local Open Scope list_scope.

(** ** JavaScript helpers *)

Module JS.

(** [ToBoolean] on a value that is a string or [undefined]. *)
Definition truthy (v : option string) : bool :=
  match v with
  | None => false
  | Some s => negb (String.eqb s "")
  end.

(** [a === v] where [a] is a string and [v] a string or [undefined]. *)
Definition strictEq (a : string) (v : option string) : bool :=
  match v with
  | None => false
  | Some s => String.eqb a s
  end.

(** [s.split(sep)] for a one-character separator. *)
Fixpoint split (sep : ascii) (s : string) : list string :=
  match s with
  | EmptyString => [EmptyString]
  | String c rest =>
      if Ascii.eqb c sep then EmptyString :: split sep rest
      else match split sep rest with
           | [] => [String c EmptyString]
           | piece :: pieces => String c piece :: pieces
           end
  end.

(** [xs.findIndex(p)]: the index of the first element satisfying [p],
    or [-1]. *)
Fixpoint findIndexFrom {A : Type} (i : Z) (p : A -> bool) (xs : list A) : Z :=
  match xs with
  | [] => (-1)%Z
  | x :: xs' => if p x then i else findIndexFrom (i + 1)%Z p xs'
  end.

Definition findIndex {A : Type} (p : A -> bool) (xs : list A) : Z :=
  findIndexFrom 0%Z p xs.

(** [c] occurs in [s]. *)
Fixpoint occurs (c : ascii) (s : string) : bool :=
  match s with
  | EmptyString => false
  | String d rest => Ascii.eqb d c || occurs c rest
  end.

(** [`${v}`] for a value that is a string or [undefined]. *)
Definition template (v : option string) : string :=
  match v with
  | None => "undefined"
  | Some s => s
  end.

End JS.

(** ** Data *)

Definition Buffer := list byte.

(** The part of a proto-loader message type definition that is read. *)
Module MessageTypeDefinition.
Record t := mk { fileDescriptorProtos : option (list Buffer) }.
End MessageTypeDefinition.

(** The part of a grpc-js method definition that is read. *)
Module MethodDefinition.
Record t := mk {
  path : string;
  requestType : option MessageTypeDefinition.t
}.
End MethodDefinition.

(** A service definition is an object from method names to method
    definitions; the properties are kept in insertion order. *)
Definition ServiceDefinition := list (string * MethodDefinition.t).

Definition Object_values {K V : Type} (o : list (K * V)) : list V :=
  map snd o.

(** Decoded descriptors: the properties of a decoded
    [google.protobuf.FileDescriptorProto] that the session reads. An unset
    string reads as the empty string, an unset repeated field as the empty
    array. *)
Module Named.
Record t := mk { name : string }.
End Named.

Module FileDescriptorProto.
Record t := mk {
  name : string;
  package : string;
  messageType : list Named.t;
  enumType : list Named.t;
  service : list Named.t
}.
End FileDescriptorProto.

(** Reflection requests as the data listener sees them. *)
Record Request := mkRequest {
  listServices : option string;
  fileContainingSymbol : option string;
  fileByFilename : option string;
  fileContainingExtension : option string;
  allExtensionNumbersOfType : option string
}.

(** [grpc.status] *)
Module status.
Definition NOT_FOUND : Z := 5.
Definition UNIMPLEMENTED : Z := 12.
End status.

(** Reflection responses written by the session. [None] as a service name
    is [undefined]. *)
Inductive Response :=
| listServicesResponse (service : list (option string))
| fileDescriptorResponse (fileDescriptorProto : list Buffer)
| errorResponse (errorCode : Z).

(** ** Effects *)

Inductive LogLine :=
| LogStarted
| LogData (request : Request)
| LogSentListServices
| LogSentFileDescriptor (name : string)
| LogSentNotFound
| LogSentUnimplemented
| LogEnded
| LogCancelled.

Inductive Effect :=
| console_log (line : LogLine)
| call_write (response : Response)
| call_end.

Inductive Exn :=
| TypeError
| MalformedSchema.

Inductive Outcome (A : Type) :=
| Done (a : A)
| Throw (e : Exn).
Arguments Done {A} a.
Arguments Throw {A} e.

(** A computation: the effects it performed and how it finished. *)
Definition Eff (A : Type) : Type := (list Effect * Outcome A)%type.

Definition ret {A : Type} (a : A) : Eff A := ([], Done a).

Definition throw {A : Type} (e : Exn) : Eff A := ([], Throw e).

Definition bind {A B : Type} (m : Eff A) (k : A -> Eff B) : Eff B :=
  match m with
  | (t, Done a) => let (t', r) := k a in (t ++ t', r)
  | (t, Throw e) => (t, Throw e)
  end.

Definition perform (e : Effect) : Eff unit := ([e], Done tt).

Declare Scope eff_scope.
Delimit Scope eff_scope with eff.
Notation "x <- m ;; k" := (bind m (fun x => k))
  (at level 61, m at next level, right associativity) : eff_scope.
Notation "m ;; k" := (bind m (fun _ => k))
  (at level 61, right associativity) : eff_scope.
Local Open Scope eff_scope.

Definition trace {A : Type} (m : Eff A) : list Effect := fst m.
Definition outcome {A : Type} (m : Eff A) : Outcome A := snd m.

(** The responses written to the call, in order. *)
Fixpoint writes (t : list Effect) : list Response :=
  match t with
  | [] => []
  | call_write r :: t' => r :: writes t'
  | _ :: t' => writes t'
  end.

(** Control after one pass through the body of a [for ... of] loop whose
    body may execute [return]. *)
Inductive Flow := Next | Return.

Fixpoint forOf {A : Type} (xs : list A) (body : A -> Eff Flow) : Eff Flow :=
  match xs with
  | [] => ret Next
  | x :: xs' =>
      f <- body x ;;
      match f with
      | Return => ret Return
      | Next => forOf xs' body
      end
  end.

(** [xs.map(f)] for a callback that may throw. *)
Fixpoint mapM {A B : Type} (f : A -> Eff B) (xs : list A) : Eff (list B) :=
  match xs with
  | [] => ret []
  | x :: xs' => y <- f x ;; ys <- mapM f xs' ;; ret (y :: ys)
  end.

(** ** Registry: the arrays captured by the closures of [start] *)

Record Registry := mkRegistry {
  services : list ServiceDefinition;
  fileDescriptorProtos : list (list Buffer)
}.

Definition emptyRegistry : Registry := mkRegistry [] [].

(** [Object.values(service)[0]]; reading a property of [undefined] throws. *)
Definition firstMethod (service : ServiceDefinition) : Eff MethodDefinition.t :=
  match Object_values service with
  | [] => throw TypeError
  | m :: _ => ret m
  end.

(** [addReflectedService]: the new registry and how the call finished.
    [server.addService] registers the handlers with the transport and
    leaves both arrays alone; it comes after both pushes, and the
    exceptions of the transport itself (a method path that was already
    registered) are not modelled: the transport may refuse a registration
    that goes through here. *)
Definition addReflectedService (st : Registry) (service : ServiceDefinition)
  : Registry * Outcome unit :=
  let st1 := mkRegistry (services st ++ [service]) (fileDescriptorProtos st) in
  match Object_values service with
  | [] => (st1, Throw TypeError)
  | m :: _ =>
      let protos :=
        match MethodDefinition.requestType m with
        | None => None
        | Some rt => MessageTypeDefinition.fileDescriptorProtos rt
        end in
      match protos with
      | Some ps =>
          (mkRegistry (services st1) (fileDescriptorProtos st1 ++ [ps]),
           Done tt)
      | None => (st1, Done tt)
      end
  end.

(** Registration at start-up. [start] calls [addReflectedService] once,
    for the greeter service; a server with more services calls it once for
    each, one after the other. The first exception rejects [start], and
    the server never listens. *)
Fixpoint registerAll (st : Registry) (svcs : list ServiceDefinition)
  : Registry * Outcome unit :=
  match svcs with
  | [] => (st, Done tt)
  | s :: rest =>
      match addReflectedService st s with
      | (st', Done _) => registerAll st' rest
      | (st', Throw e) => (st', Throw e)
      end
  end.

(** ** The session *)

Inductive Event :=
| data (request : Request)
| end_
| cancelled.

Section Session.

(** [descriptorProto.lookupType('google.protobuf.FileDescriptorProto')
    .decode] *)
Variable decode : Buffer -> option FileDescriptorProto.t.

Definition decodeProto (proto : Buffer) : Eff FileDescriptorProto.t :=
  match decode proto with
  | Some fdp => ret fdp
  | None => throw MalformedSchema
  end.

(** [fdp.package && `${fdp.package}.`] *)
Definition packageName (fdp : FileDescriptorProto.t) : string :=
  if String.eqb (FileDescriptorProto.package fdp) "" then ""
  else FileDescriptorProto.package fdp ++ ".".

Definition nameMatch (fdp : FileDescriptorProto.t) (symbol : option string)
    (xs : list Named.t) : bool :=
  negb (JS.findIndex
          (fun x => JS.strictEq (packageName fdp ++ Named.name x) symbol) xs
        =? -1)%Z.

Definition serviceMatch fdp symbol :=
  nameMatch fdp symbol (FileDescriptorProto.service fdp).
Definition messageTypeMatch fdp symbol :=
  nameMatch fdp symbol (FileDescriptorProto.messageType fdp).
Definition enumTypeMatch fdp symbol :=
  nameMatch fdp symbol (FileDescriptorProto.enumType fdp).

(** The condition of the [if] of the symbol search. *)
Definition symbolMatch (fdp : FileDescriptorProto.t) (symbol : option string)
  : bool :=
  JS.strictEq (FileDescriptorProto.package fdp) symbol
  || serviceMatch fdp symbol
  || messageTypeMatch fdp symbol
  || enumTypeMatch fdp symbol.

(** The condition of the [if] of the file-name search. *)
Definition filenameMatch (fdp : FileDescriptorProto.t)
    (filename : option string) : bool :=
  JS.strictEq (FileDescriptorProto.name fdp) filename.

(** The listener of ['data']. *)
Definition onData (st : Registry) (request : Request) : Eff unit :=
  perform (console_log (LogData request)) ;;
  if JS.truthy (listServices request) then
    names <- mapM (fun service =>
                     m <- firstMethod service ;;
                     ret (nth_error
                            (JS.split "/" (MethodDefinition.path m)) 1))
                  (services st) ;;
    perform (call_write (listServicesResponse names)) ;;
    perform (console_log LogSentListServices)
  else if JS.truthy (fileContainingSymbol request) then
    f <- forOf (fileDescriptorProtos st) (fun protos =>
           forOf protos (fun proto =>
             fdp <- decodeProto proto ;;
             if symbolMatch fdp (fileContainingSymbol request) then
               perform (call_write (fileDescriptorResponse protos)) ;;
               perform (console_log
                          (LogSentFileDescriptor
                             (FileDescriptorProto.name fdp))) ;;
               ret Return
             else ret Next)) ;;
    match f with
    | Return => ret tt
    | Next =>
        perform (call_write (errorResponse status.NOT_FOUND)) ;;
        perform (console_log LogSentNotFound)
    end
  else if JS.truthy (fileByFilename request) then
    f <- forOf (fileDescriptorProtos st) (fun protos =>
           forOf protos (fun proto =>
             fdp <- decodeProto proto ;;
             if filenameMatch fdp (fileByFilename request) then
               perform (call_write (fileDescriptorResponse protos)) ;;
               perform (console_log
                          (LogSentFileDescriptor
                             (FileDescriptorProto.name fdp))) ;;
               ret Return
             else ret Next)) ;;
    match f with
    | Return => ret tt
    | Next =>
        perform (call_write (errorResponse status.NOT_FOUND)) ;;
        perform (console_log LogSentNotFound)
    end
  else
    perform (call_write (errorResponse status.UNIMPLEMENTED)) ;;
    perform (console_log LogSentUnimplemented).

(** The listener of ['end']. *)
Definition onEnd : Eff unit :=
  perform call_end ;;
  perform (console_log LogEnded).

(** The listener of ['cancelled']. *)
Definition onCancelled : Eff unit :=
  perform (console_log LogCancelled).

Definition emit (st : Registry) (ev : Event) : Eff unit :=
  match ev with
  | data request => onData st request
  | end_ => onEnd
  | cancelled => onCancelled
  end.

(** The events of one stream are delivered to the listeners one at a
    time, each listener running to completion; an exception leaving a
    listener is not caught by the session. *)
Fixpoint deliver (st : Registry) (events : list Event) : Eff unit :=
  match events with
  | [] => ret tt
  | ev :: rest => emit st ev ;; deliver st rest
  end.

(** [ServerReflectionInfo]: the handler of one reflection stream, run on
    the events of that stream. *)
Definition ServerReflectionInfo (st : Registry) (events : list Event)
  : Eff unit :=
  perform (console_log LogStarted) ;;
  deliver st events.

End Session.

(** ** The greeter service *)

(** The request and the reply of [sayHello], as objects: a property that
    was not set on the request reads [undefined]. *)
Module HelloRequest.
Record t := mk { name : option string }.
End HelloRequest.

Module HelloReply.
Record t := mk { message : string }.
End HelloReply.

(** [sayHello]: the two arguments its callback is called with, the error
    ([null], here [None]) and the reply. *)
Definition sayHello (request : HelloRequest.t) : option Exn * HelloReply.t :=
  (None,
   HelloReply.mk ("Hello, " ++ JS.template (HelloRequest.name request))).

(** ** A decoder for the examples

    The protocol-buffer wire format, restricted to what the session reads
    of a file descriptor: [name] (field 1), [package] (field 2),
    [message_type] (field 4), [enum_type] (field 5), [service] (field 6),
    and of each of the three nested descriptors its [name] (field 1).
    Every theorem below holds for any decoder; this one instantiates them
    on concrete buffers. It is an instance for the examples and not a
    model of protobufjs: it refuses a field whose wire type is not the
    declared one, it does not look into the other fields of a descriptor,
    and it reads a string byte by byte where protobufjs decodes UTF-8. *)

Module Wire.

(** A base-128 varint, least significant group first. *)
Fixpoint varint (bs : list byte) : option (N * list byte) :=
  match bs with
  | [] => None
  | b :: rest =>
      let v := Byte.to_N b in
      if N.ltb v 128 then Some (v, rest)
      else match varint rest with
           | Some (hi, rest') =>
               Some (N.lor (N.land v 127) (N.shiftl hi 7), rest')
           | None => None
           end
  end.

Inductive Value :=
| Varint (n : N)
| Fixed (bytes : list byte)
| Delimited (payload : list byte).

Definition take (n : nat) (bs : list byte) : option (list byte * list byte) :=
  if Nat.leb n (List.length bs) then Some (firstn n bs, skipn n bs) else None.

(** The fields of one message, in the order they appear. *)
Fixpoint fields (fuel : nat) (bs : list byte) : option (list (N * Value)) :=
  match bs, fuel with
  | [], _ => Some []
  | _, O => None
  | _, S fuel' =>
      match varint bs with
      | None => None
      | Some (tag, rest) =>
          let number := N.shiftr tag 3 in
          let continue (v : Value) (rest' : list byte) :=
            option_map (cons (number, v)) (fields fuel' rest') in
          match N.land tag 7 with
          | 0%N => match varint rest with
                   | Some (n, rest') => continue (Varint n) rest'
                   | None => None
                   end
          | 1%N => match take 8 rest with
                   | Some (p, rest') => continue (Fixed p) rest'
                   | None => None
                   end
          | 2%N => match varint rest with
                   | Some (len, rest') =>
                       match take (N.to_nat len) rest' with
                       | Some (p, rest'') => continue (Delimited p) rest''
                       | None => None
                       end
                   | None => None
                   end
          | 5%N => match take 4 rest with
                   | Some (p, rest') => continue (Fixed p) rest'
                   | None => None
                   end
          | _ => None
          end
      end
  end.

Definition parse (bs : list byte) : option (list (N * Value)) :=
  fields (List.length bs) bs.

(** The last occurrence of string field [number]; the empty string when
    the field is not set. *)
Fixpoint stringField (number : N) (fs : list (N * Value)) (default : string)
  : option string :=
  match fs with
  | [] => Some default
  | (n, v) :: fs' =>
      if N.eqb n number then
        match v with
        | Delimited p => stringField number fs' (string_of_list_byte p)
        | _ => None
        end
      else stringField number fs' default
  end.

Definition named (payload : list byte) : option Named.t :=
  match parse payload with
  | None => None
  | Some fs => option_map Named.mk (stringField 1 fs "")
  end.

(** The occurrences of the repeated descriptor field [number]. *)
Fixpoint namedFields (number : N) (fs : list (N * Value))
  : option (list Named.t) :=
  match fs with
  | [] => Some []
  | (n, v) :: fs' =>
      if N.eqb n number then
        match v with
        | Delimited p =>
            match named p, namedFields number fs' with
            | Some x, Some xs => Some (x :: xs)
            | _, _ => None
            end
        | _ => None
        end
      else namedFields number fs'
  end.

Definition decode (proto : Buffer) : option FileDescriptorProto.t :=
  match parse proto with
  | None => None
  | Some fs =>
      match stringField 1 fs "", stringField 2 fs "",
            namedFields 4 fs, namedFields 5 fs, namedFields 6 fs with
      | Some n, Some p, Some ms, Some es, Some ss =>
          Some (FileDescriptorProto.mk n p ms es ss)
      | _, _, _, _, _ => None
      end
  end.

(** Encoding of the examples: a length-delimited field whose number and
    length both fit one varint byte. *)
Definition small (n : N) : byte :=
  match Byte.of_N n with
  | Some b => b
  | None => x00
  end.

Definition delimited (number : N) (payload : list byte) : list byte :=
  small (number * 8 + 2) :: small (N.of_nat (List.length payload)) :: payload.

Definition text (number : N) (s : string) : list byte :=
  delimited number (list_byte_of_string s).

Definition descriptor (name package : string)
    (messages enums svcs : list string) : Buffer :=
  text 1 name ++ text 2 package
  ++ flat_map (fun m => delimited 4 (text 1 m)) messages
  ++ flat_map (fun e => delimited 5 (text 1 e)) enums
  ++ flat_map (fun s => delimited 6 (text 1 s)) svcs.

End Wire.

(** ** Example registry *)

Module Sample.

Definition greeterProto : Buffer :=
  Wire.descriptor "greeter.proto" "greeter"
    ["HelloRequest"; "HelloReply"] [] ["Greeter"].

Definition commonProto : Buffer :=
  Wire.descriptor "common.proto" "" ["Empty"] ["Level"] [].

Definition echoProto : Buffer :=
  Wire.descriptor "echo.proto" "greeter" ["EchoRequest"] [] ["Echo"].

(** A buffer that stops after the tag of its first field. *)
Definition truncatedProto : Buffer := [x0a].

Definition method (path : string) (protos : option (list Buffer))
  : MethodDefinition.t :=
  MethodDefinition.mk path (Some (MessageTypeDefinition.mk protos)).

Definition greeterService : ServiceDefinition :=
  [("sayHello", method "/greeter.Greeter/SayHello" (Some [greeterProto]))].

(** A service whose definition carries no descriptors. *)
Definition healthService : ServiceDefinition :=
  [("check", MethodDefinition.mk "/grpc.health.v1.Health/Check" None);
   ("watch", MethodDefinition.mk "/grpc.health.v1.Health/Watch" None)].

Definition echoService : ServiceDefinition :=
  [("echo", method "/greeter.Echo/Echo" (Some [commonProto; echoProto]))].

Definition brokenService : ServiceDefinition :=
  [("run", method "/broken.Job/Run" (Some [commonProto; truncatedProto]))].

Definition registry : Registry :=
  fst (registerAll emptyRegistry [greeterService; healthService; echoService]).

Definition brokenRegistry : Registry :=
  fst (registerAll emptyRegistry [greeterService; brokenService; echoService]).

Definition askListServices (value : string) : Request :=
  mkRequest (Some value) None None None None.

Definition askSymbol (symbol : string) : Request :=
  mkRequest None (Some symbol) None None None.

Definition askFilename (filename : string) : Request :=
  mkRequest None None (Some filename) None None.

Definition askExtension (value : string) : Request :=
  mkRequest None None None (Some value) None.

End Sample.

(** ** Definitions used to state the properties *)

(** The path grpc-js gives the method [method] of the service whose
    qualified name is [qualifiedName]. *)
Definition methodPath (qualifiedName method : string) : string :=
  "/" ++ qualifiedName ++ "/" ++ method.

(** A service definition whose first method belongs to the service named
    [qualifiedName]. *)
Definition definesService (service : ServiceDefinition) (qualifiedName : string)
  : Prop :=
  exists key m rest method,
    service = (key, m) :: rest
    /\ MethodDefinition.path m = methodPath qualifiedName method
    /\ JS.occurs "/" qualifiedName = false.

(** The schema buffers a service definition carries, if any. *)
Definition schemaBuffers (service : ServiceDefinition) : option (list Buffer) :=
  match service with
  | [] => None
  | (_, m) :: _ =>
      match MethodDefinition.requestType m with
      | None => None
      | Some rt => MessageTypeDefinition.fileDescriptorProtos rt
      end
  end.

(** The descriptor groups of a sequence of registrations: in registration
    order, the groups of the services that had schema buffers. *)
Fixpoint descriptorGroups (svcs : list ServiceDefinition)
  : list (list Buffer) :=
  match svcs with
  | [] => []
  | s :: rest =>
      match schemaBuffers s with
      | Some protos => protos :: descriptorGroups rest
      | None => descriptorGroups rest
      end
  end.

(** The qualified name of a declaration: the package, a dot and the name
    when the package is not empty, the name alone otherwise. *)
Definition qualifiedName (package name : string) : string :=
  if String.eqb package "" then name else package ++ "." ++ name.

(** A decoded descriptor matches a symbol when its package is the symbol,
    or the qualified name of one of its services, messages or enums is. *)
Definition declares (fdp : FileDescriptorProto.t) (symbol : string) : Prop :=
  FileDescriptorProto.package fdp = symbol
  \/ exists x,
       (In x (FileDescriptorProto.service fdp)
        \/ In x (FileDescriptorProto.messageType fdp)
        \/ In x (FileDescriptorProto.enumType fdp))
       /\ qualifiedName (FileDescriptorProto.package fdp) (Named.name x)
          = symbol.

(** The effects that record the exchange on the stream: a request handed
    to the data listener, a response written. *)
Fixpoint exchange (t : list Effect) : list Effect :=
  match t with
  | [] => []
  | console_log (LogData r) :: t' => console_log (LogData r) :: exchange t'
  | call_write o :: t' => call_write o :: exchange t'
  | _ :: t' => exchange t'
  end.

(** How a search that found [fdp] in the group [protos] ends: the group
    is written, the file name is logged, the listener returns. *)
Definition found (protos : list Buffer) (fdp : FileDescriptorProto.t)
  : Eff Flow :=
  ([call_write (fileDescriptorResponse protos);
    console_log (LogSentFileDescriptor (FileDescriptorProto.name fdp))],
   Done Return).

(** The registry with which the server starts to listen: every
    registration of [svcs] went through. *)
Definition serving (svcs : list ServiceDefinition) (st : Registry) : Prop :=
  registerAll emptyRegistry svcs = (st, Done tt).

(** The request with its [listServices] field removed. *)
Definition withoutListServices (request : Request) : Request :=
  mkRequest None (fileContainingSymbol request) (fileByFilename request)
    (fileContainingExtension request) (allExtensionNumbersOfType request).

Section Search.

Variable decode : Buffer -> option FileDescriptorProto.t.

(** The body of the inner loop of both searches, for the condition
    [cond] of its [if]. *)
Definition visit (cond : FileDescriptorProto.t -> bool)
    (protos : list Buffer) (proto : Buffer) : Eff Flow :=
  fdp <- decodeProto decode proto ;;
  if cond fdp then
    perform (call_write (fileDescriptorResponse protos)) ;;
    perform (console_log
               (LogSentFileDescriptor (FileDescriptorProto.name fdp))) ;;
    ret Return
  else ret Next.

(** The two nested loops. *)
Definition scan (cond : FileDescriptorProto.t -> bool)
    (groups : list (list Buffer)) : Eff Flow :=
  forOf groups (fun protos => forOf protos (visit cond protos)).

(** The condition a search request tests on each decoded buffer. *)
Definition searchCondition (request : Request) (fdp : FileDescriptorProto.t)
  : bool :=
  if JS.truthy (fileContainingSymbol request)
  then symbolMatch fdp (fileContainingSymbol request)
  else filenameMatch fdp (fileByFilename request).

(** A buffer the search decodes and passes over. *)
Definition skipped (cond : FileDescriptorProto.t -> bool) (proto : Buffer)
  : Prop :=
  exists fdp, decode proto = Some fdp /\ cond fdp = false.

(** A buffer that decodes to a descriptor not matching [symbol]. *)
Definition withoutSymbol (symbol : string) (proto : Buffer) : Prop :=
  exists fdp, decode proto = Some fdp /\ ~ declares fdp symbol.

(** A buffer that decodes to a descriptor of a file not named
    [filename]. *)
Definition notNamed (filename : string) (proto : Buffer) : Prop :=
  exists fdp, decode proto = Some fdp
              /\ FileDescriptorProto.name fdp <> filename.

End Search.

(** The log lines that report a response. *)
Definition reportsResponse (l : LogLine) : bool :=
  match l with
  | LogSentListServices | LogSentFileDescriptor _
  | LogSentNotFound | LogSentUnimplemented => true
  | _ => false
  end.

(** The callback of [services.map] in the data listener. *)
Definition listName (service : ServiceDefinition) : Eff (option string) :=
  m <- firstMethod service ;;
  ret (nth_error (JS.split "/" (MethodDefinition.path m)) 1).

(** The name the session lists for a registered service. *)
Definition listedName (service : ServiceDefinition) : option string :=
  match service with
  | [] => None
  | (_, m) :: _ => nth_error (JS.split "/" (MethodDefinition.path m)) 1
  end.

(** The branch of the data listener a request is dispatched to, with the
    value the branch reads. *)
Inductive Dispatch :=
| ToListServices
| ToFileContainingSymbol (symbol : option string)
| ToFileByFilename (filename : option string)
| ToUnimplemented.

Definition dispatch (request : Request) : Dispatch :=
  if JS.truthy (listServices request) then ToListServices
  else if JS.truthy (fileContainingSymbol request)
       then ToFileContainingSymbol (fileContainingSymbol request)
  else if JS.truthy (fileByFilename request)
       then ToFileByFilename (fileByFilename request)
  else ToUnimplemented.

(** The requests among the events of a stream. *)
Fixpoint requests (events : list Event) : list Request :=
  match events with
  | [] => []
  | data r :: rest => r :: requests rest
  | _ :: rest => requests rest
  end.

(** The method the registration and the listing read of a service
    definition. *)
Definition consulted (service : ServiceDefinition)
  : option MethodDefinition.t :=
  hd_error (Object_values service).

(** A group one of whose buffers decodes to a descriptor that satisfies
    the test of the request. *)
Definition holdsMatch (decode : Buffer -> option FileDescriptorProto.t)
    (request : Request) (group : list Buffer) : Prop :=
  exists proto fdp,
    In proto group /\ decode proto = Some fdp
    /\ searchCondition request fdp = true.

(** [c] occurs [n] times in [s]. *)
Fixpoint occurrences (c : ascii) (s : string) : nat :=
  match s with
  | EmptyString => 0
  | String d rest =>
      if Ascii.eqb d c then S (occurrences c rest) else occurrences c rest
  end.

(** * Properties *)

(** ** Strings and arrays *)

Lemma append_assoc (a b c : string) :
  ((a ++ b) ++ c = a ++ (b ++ c))%string.
Proof.
  induction a as [|x a IH]; simpl; [reflexivity | now rewrite IH].
Qed.

Lemma truthy_Some (s : string) : JS.truthy (Some s) = true <-> s <> "".
Proof.
  unfold JS.truthy. destruct (String.eqb_spec s ""); simpl; split;
    congruence.
Qed.

Lemma strictEq_Some (a s : string) : JS.strictEq a (Some s) = true <-> a = s.
Proof. apply String.eqb_eq. Qed.

Lemma split_piece (q rest : string) :
  JS.occurs "/" q = false ->
  JS.split "/" (q ++ String "/" rest)%string = q :: JS.split "/" rest.
Proof.
  induction q as [|c q IH]; simpl; intros H.
  - reflexivity.
  - apply orb_false_iff in H as [Hc Hq].
    rewrite Hc, (IH Hq). reflexivity.
Qed.

(** The second piece of a method path is the qualified service name. *)
Lemma split_methodPath (q method : string) :
  JS.occurs "/" q = false ->
  nth_error (JS.split "/" (methodPath q method)) 1 = Some q.
Proof.
  intros H. unfold methodPath. simpl.
  rewrite (split_piece q method H). reflexivity.
Qed.

Lemma findIndexFrom_existsb {A : Type} (p : A -> bool) (xs : list A) :
  forall i, (0 <= i)%Z ->
  negb (JS.findIndexFrom i p xs =? -1)%Z = existsb p xs.
Proof.
  induction xs as [|x xs IH]; simpl; intros i Hi.
  - reflexivity.
  - destruct (p x); simpl.
    + destruct (Z.eqb_spec i (-1)); [lia | reflexivity].
    + apply IH. lia.
Qed.

Lemma findIndex_existsb {A : Type} (p : A -> bool) (xs : list A) :
  negb (JS.findIndex p xs =? -1)%Z = existsb p xs.
Proof. apply findIndexFrom_existsb. lia. Qed.

(** ** Registration *)

Lemma addReflectedService_Done
    (st st' : Registry) (service : ServiceDefinition) :
  addReflectedService st service = (st', Done tt) ->
  service <> []
  /\ services st' = services st ++ [service]
  /\ fileDescriptorProtos st' =
       fileDescriptorProtos st ++ descriptorGroups [service].
Proof.
  unfold addReflectedService. destruct service as [|[key m] rest]; simpl.
  - discriminate.
  - destruct (MethodDefinition.requestType m) as [rt|]; simpl.
    + destruct (MessageTypeDefinition.fileDescriptorProtos rt); simpl;
        intros E; inversion E; subst; simpl; rewrite ?app_nil_r;
        (split; [discriminate | split; reflexivity]).
    + intros E; inversion E; subst; simpl; rewrite ?app_nil_r;
        (split; [discriminate | split; reflexivity]).
Qed.

Lemma descriptorGroups_cons
    (s : ServiceDefinition) (rest : list ServiceDefinition) :
  descriptorGroups (s :: rest) = descriptorGroups [s] ++ descriptorGroups rest.
Proof. simpl. destruct (schemaBuffers s); reflexivity. Qed.

(** After a registration that went through, both arrays hold what was
    registered, in registration order, and every service has a method. *)
Lemma registerAll_Done (svcs : list ServiceDefinition) :
  forall st st',
  registerAll st svcs = (st', Done tt) ->
  Forall (fun s => s <> []) svcs
  /\ services st' = services st ++ svcs
  /\ fileDescriptorProtos st'
     = fileDescriptorProtos st ++ descriptorGroups svcs.
Proof.
  induction svcs as [|s rest IH]; cbn [registerAll]; intros st st' H.
  - inversion H; subst. simpl. rewrite !app_nil_r. auto.
  - destruct (addReflectedService st s) as [st1 [[]|e]] eqn:E;
      [|discriminate].
    apply addReflectedService_Done in E as (Hs & Hsv & Hfd).
    apply IH in H as (Hall & Hsv' & Hfd').
    split; [constructor; assumption|].
    rewrite Hsv', Hsv, Hfd', Hfd, <- !app_assoc. split; [reflexivity|].
    now rewrite (descriptorGroups_cons s rest).
Qed.

(** ** Matching *)

Lemma packageName_qualifiedName (fdp : FileDescriptorProto.t) (n : string) :
  (packageName fdp ++ n)%string
  = qualifiedName (FileDescriptorProto.package fdp) n.
Proof.
  unfold packageName, qualifiedName.
  destruct (String.eqb (FileDescriptorProto.package fdp) "").
  - reflexivity.
  - apply append_assoc.
Qed.

Lemma nameMatch_In
    (fdp : FileDescriptorProto.t) (s : string) (xs : list Named.t) :
  nameMatch fdp (Some s) xs = true <->
  exists x, In x xs
            /\ qualifiedName (FileDescriptorProto.package fdp) (Named.name x)
               = s.
Proof.
  unfold nameMatch. rewrite findIndex_existsb, existsb_exists.
  split; intros (x & Hin & Hx); exists x; split; trivial.
  - apply strictEq_Some in Hx. now rewrite <- packageName_qualifiedName.
  - apply strictEq_Some. now rewrite packageName_qualifiedName.
Qed.

(** The test of the symbol search is the matching rule of the
    specification. *)
Lemma symbolMatch_declares (fdp : FileDescriptorProto.t) (s : string) :
  symbolMatch fdp (Some s) = true <-> declares fdp s.
Proof.
  unfold symbolMatch, serviceMatch, messageTypeMatch, enumTypeMatch, declares.
  rewrite !orb_true_iff, strictEq_Some, !nameMatch_In.
  split.
  - intros [[[H | (x & Hin & Hx)] | (x & Hin & Hx)] | (x & Hin & Hx)];
      [left; exact H | right; exists x; auto ..].
  - intros [H | (x & [Hin | [Hin | Hin]] & Hx)].
    + auto.
    + left; left; right. exists x; auto.
    + left; right. exists x; auto.
    + right. exists x; auto.
Qed.

Lemma symbolMatch_false (fdp : FileDescriptorProto.t) (s : string) :
  symbolMatch fdp (Some s) = false <-> ~ declares fdp s.
Proof.
  rewrite <- symbolMatch_declares.
  destruct (symbolMatch fdp (Some s)); split; congruence.
Qed.

Lemma filenameMatch_name (fdp : FileDescriptorProto.t) (f : string) :
  filenameMatch fdp (Some f) = true <-> FileDescriptorProto.name fdp = f.
Proof. apply strictEq_Some. Qed.

Lemma filenameMatch_false (fdp : FileDescriptorProto.t) (f : string) :
  filenameMatch fdp (Some f) = false <-> FileDescriptorProto.name fdp <> f.
Proof. apply String.eqb_neq. Qed.

(** ** The two loops *)

Section SearchFacts.

Variable decode : Buffer -> option FileDescriptorProto.t.
Variable cond : FileDescriptorProto.t -> bool.

Lemma visit_skipped protos proto :
  skipped decode cond proto ->
  visit decode cond protos proto = ([], Done Next).
Proof.
  intros (fdp & Hd & Hc). unfold visit, decodeProto.
  rewrite Hd. simpl. now rewrite Hc.
Qed.

Lemma visit_match protos proto fdp :
  decode proto = Some fdp -> cond fdp = true ->
  visit decode cond protos proto = found protos fdp.
Proof.
  intros Hd Hc. unfold visit, decodeProto. rewrite Hd. simpl. now rewrite Hc.
Qed.

Lemma visit_malformed protos proto :
  decode proto = None ->
  visit decode cond protos proto = ([], Throw MalformedSchema).
Proof. intros Hd. unfold visit, decodeProto. now rewrite Hd. Qed.

Lemma bind_nil_Done {A B : Type} (a : A) (k : A -> Eff B) :
  bind ([], Done a) k = k a.
Proof. simpl. now destruct (k a). Qed.

Lemma inner_skipped protos bufs rest :
  Forall (skipped decode cond) bufs ->
  forOf (bufs ++ rest) (visit decode cond protos)
  = forOf rest (visit decode cond protos).
Proof.
  induction 1 as [|b bufs Hb _ IH]; [reflexivity|].
  cbn [app forOf]. rewrite (visit_skipped _ _ Hb), bind_nil_Done. exact IH.
Qed.

Lemma inner_all_skipped protos bufs :
  Forall (skipped decode cond) bufs ->
  forOf bufs (visit decode cond protos) = ([], Done Next).
Proof.
  intros H. rewrite <- (app_nil_r bufs), (inner_skipped protos _ [] H).
  reflexivity.
Qed.

Lemma scan_skipped groups rest :
  Forall (Forall (skipped decode cond)) groups ->
  scan decode cond (groups ++ rest) = scan decode cond rest.
Proof.
  unfold scan. induction 1 as [|g groups Hg _ IH]; [reflexivity|].
  cbn [app forOf].
  rewrite (inner_all_skipped g g Hg), bind_nil_Done. exact IH.
Qed.

Lemma scan_missing groups :
  Forall (Forall (skipped decode cond)) groups ->
  scan decode cond groups = ([], Done Next).
Proof.
  intros H. rewrite <- (app_nil_r groups), (scan_skipped _ _ H). reflexivity.
Qed.

Lemma scan_found groupsBefore bufsBefore proto bufsAfter groupsAfter fdp :
  Forall (Forall (skipped decode cond)) groupsBefore ->
  Forall (skipped decode cond) bufsBefore ->
  decode proto = Some fdp -> cond fdp = true ->
  scan decode cond
    (groupsBefore ++ (bufsBefore ++ proto :: bufsAfter) :: groupsAfter)
  = found (bufsBefore ++ proto :: bufsAfter) fdp.
Proof.
  intros Hg Hb Hd Hc. rewrite (scan_skipped _ _ Hg).
  unfold scan. cbn [forOf]. rewrite (inner_skipped _ _ _ Hb).
  cbn [forOf]. rewrite (visit_match _ _ _ Hd Hc). reflexivity.
Qed.

Lemma scan_malformed groupsBefore bufsBefore proto bufsAfter groupsAfter :
  Forall (Forall (skipped decode cond)) groupsBefore ->
  Forall (skipped decode cond) bufsBefore ->
  decode proto = None ->
  scan decode cond
    (groupsBefore ++ (bufsBefore ++ proto :: bufsAfter) :: groupsAfter)
  = ([], Throw MalformedSchema).
Proof.
  intros Hg Hb Hd. rewrite (scan_skipped _ _ Hg).
  unfold scan. cbn [forOf]. rewrite (inner_skipped _ _ _ Hb).
  cbn [forOf]. rewrite (visit_malformed _ _ Hd). reflexivity.
Qed.

(** However a search ends, it wrote nothing or one group. *)
Lemma inner_cases protos bufs :
  forOf bufs (visit decode cond protos) = ([], Done Next)
  \/ (exists fdp, forOf bufs (visit decode cond protos) = found protos fdp)
  \/ forOf bufs (visit decode cond protos) = ([], Throw MalformedSchema).
Proof.
  induction bufs as [|b bufs IH]; [left; reflexivity|].
  cbn [forOf]. destruct (decode b) as [fdp|] eqn:Hd.
  - destruct (cond fdp) eqn:Hc.
    + right; left. exists fdp. now rewrite (visit_match _ _ _ Hd Hc).
    + rewrite visit_skipped, bind_nil_Done by (exists fdp; auto). exact IH.
  - right; right. now rewrite (visit_malformed _ _ Hd).
Qed.

Lemma scan_cases groups :
  scan decode cond groups = ([], Done Next)
  \/ (exists protos fdp, In protos groups
                         /\ scan decode cond groups = found protos fdp)
  \/ scan decode cond groups = ([], Throw MalformedSchema).
Proof.
  unfold scan. induction groups as [|g groups IH]; [left; reflexivity|].
  cbn [forOf].
  destruct (inner_cases g g) as [E | [(fdp & E) | E]]; rewrite E.
  - rewrite bind_nil_Done.
    destruct IH as [IH | [(p & d & Hin & IH) | IH]]; rewrite IH; auto.
    right; left. exists p, d. split; [now right | reflexivity].
  - right; left. exists g, fdp. split; [now left | reflexivity].
  - right; right. reflexivity.
Qed.

End SearchFacts.

(** ** The data listener, branch by branch *)

Section ListenerFacts.

Variable decode : Buffer -> option FileDescriptorProto.t.

Lemma mapM_listName svcs :
  Forall (fun s => s <> []) svcs ->
  mapM listName svcs = ([], Done (map listedName svcs)).
Proof.
  induction 1 as [|s svcs Hs _ IH]; [reflexivity|].
  cbn [mapM map]. rewrite IH.
  destruct s as [|[key m] rest]; [congruence | reflexivity].
Qed.

Lemma mapM_listName_cases svcs :
  mapM listName svcs = ([], Done (map listedName svcs))
  \/ mapM listName svcs = ([], Throw TypeError).
Proof.
  induction svcs as [|s svcs IH]; [left; reflexivity|].
  cbn [mapM map]. destruct s as [|[key m] rest]; [right; reflexivity|].
  destruct IH as [IH | IH]; rewrite IH; [left | right]; reflexivity.
Qed.

Lemma onData_listServices st request :
  JS.truthy (listServices request) = true ->
  Forall (fun s => s <> []) (services st) ->
  onData decode st request
  = ([console_log (LogData request);
      call_write (listServicesResponse (map listedName (services st)));
      console_log LogSentListServices], Done tt).
Proof.
  intros Ht Hs. unfold onData. rewrite Ht.
  fold listName. rewrite (mapM_listName _ Hs). reflexivity.
Qed.

(** Both searches run the two loops on the condition of the request. *)
Lemma onData_search st request :
  JS.truthy (listServices request) = false ->
  JS.truthy (fileContainingSymbol request)
  || JS.truthy (fileByFilename request) = true ->
  onData decode st request
  = (perform (console_log (LogData request)) ;;
     f <- scan decode (searchCondition request) (fileDescriptorProtos st) ;;
     match f with
     | Return => ret tt
     | Next =>
         perform (call_write (errorResponse status.NOT_FOUND)) ;;
         perform (console_log LogSentNotFound)
     end).
Proof.
  intros Hl Hs. unfold onData, searchCondition. rewrite Hl.
  destruct (JS.truthy (fileContainingSymbol request)); [reflexivity|].
  simpl in Hs. rewrite Hs. reflexivity.
Qed.

Lemma onData_found st request protos fdp :
  JS.truthy (listServices request) = false ->
  JS.truthy (fileContainingSymbol request)
  || JS.truthy (fileByFilename request) = true ->
  scan decode (searchCondition request) (fileDescriptorProtos st)
  = found protos fdp ->
  onData decode st request
  = ([console_log (LogData request);
      call_write (fileDescriptorResponse protos);
      console_log (LogSentFileDescriptor (FileDescriptorProto.name fdp))],
     Done tt).
Proof.
  intros Hl Hs E. rewrite (onData_search _ _ Hl Hs), E. reflexivity.
Qed.

Lemma onData_missing st request :
  JS.truthy (listServices request) = false ->
  JS.truthy (fileContainingSymbol request)
  || JS.truthy (fileByFilename request) = true ->
  scan decode (searchCondition request) (fileDescriptorProtos st)
  = ([], Done Next) ->
  onData decode st request
  = ([console_log (LogData request);
      call_write (errorResponse status.NOT_FOUND);
      console_log LogSentNotFound], Done tt).
Proof.
  intros Hl Hs E. rewrite (onData_search _ _ Hl Hs), E. reflexivity.
Qed.

Lemma onData_malformed st request :
  JS.truthy (listServices request) = false ->
  JS.truthy (fileContainingSymbol request)
  || JS.truthy (fileByFilename request) = true ->
  scan decode (searchCondition request) (fileDescriptorProtos st)
  = ([], Throw MalformedSchema) ->
  onData decode st request
  = ([console_log (LogData request)], Throw MalformedSchema).
Proof.
  intros Hl Hs E. rewrite (onData_search _ _ Hl Hs), E. reflexivity.
Qed.

Lemma onData_fallthrough st request :
  JS.truthy (listServices request) = false ->
  JS.truthy (fileContainingSymbol request) = false ->
  JS.truthy (fileByFilename request) = false ->
  onData decode st request
  = ([console_log (LogData request);
      call_write (errorResponse status.UNIMPLEMENTED);
      console_log LogSentUnimplemented], Done tt).
Proof.
  intros Hl Hs Hf. unfold onData. rewrite Hl, Hs, Hf. reflexivity.
Qed.

(** A listener that returns has logged the request, written one
    response and logged what it sent; one that throws has written
    nothing. *)
Lemma onData_cases st request :
  (exists o l,
      onData decode st request
      = ([console_log (LogData request); call_write o; console_log l],
         Done tt)
      /\ reportsResponse l = true)
  \/ (exists e,
      onData decode st request = ([console_log (LogData request)], Throw e)).
Proof.
  destruct (JS.truthy (listServices request)) eqn:Hl.
  - unfold onData. rewrite Hl. fold listName.
    destruct (mapM_listName_cases (services st)) as [E | E]; rewrite E.
    + left. eexists _, _. split; reflexivity.
    + right. eexists. reflexivity.
  - destruct (JS.truthy (fileContainingSymbol request)
              || JS.truthy (fileByFilename request)) eqn:Hs.
    + destruct (scan_cases decode (searchCondition request)
                  (fileDescriptorProtos st)) as [E | [(p & d & _ & E) | E]].
      * left. eexists _, _.
        split; [apply (onData_missing _ _ Hl Hs E) | reflexivity].
      * left. eexists _, _.
        split; [apply (onData_found _ _ _ _ Hl Hs E) | reflexivity].
      * right. eexists. apply (onData_malformed _ _ Hl Hs E).
    + apply orb_false_iff in Hs as [Hs Hf].
      left. eexists _, _.
      split; [apply (onData_fallthrough _ _ Hl Hs Hf) | reflexivity].
Qed.

Lemma onData_Done st request :
  outcome (onData decode st request) = Done tt ->
  exists o l,
    onData decode st request
    = ([console_log (LogData request); call_write o; console_log l], Done tt)
    /\ reportsResponse l = true.
Proof.
  intros H. destruct (onData_cases st request) as [E | (e & E)]; [exact E|].
  rewrite E in H. discriminate.
Qed.

(** With a registry the server listens with and stored buffers that all
    decode, no request makes the listener throw. *)
Lemma scan_decodable cond groups :
  Forall (Forall (fun b => decode b <> None)) groups ->
  scan decode cond groups <> ([], Throw MalformedSchema).
Proof.
  unfold scan. induction 1 as [|g groups Hg _ IH]; [discriminate|].
  cbn [forOf].
  assert (Hin : forall bufs, Forall (fun b => decode b <> None) bufs ->
                forOf bufs (visit decode cond g)
                <> ([], Throw MalformedSchema)).
  { induction 1 as [|b bufs Hb _ IHb]; [discriminate|].
    cbn [forOf]. destruct (decode b) as [fdp|] eqn:Hd; [|congruence].
    destruct (cond fdp) eqn:Hc.
    - rewrite (visit_match _ _ _ _ _ Hd Hc). discriminate.
    - rewrite visit_skipped, bind_nil_Done by (exists fdp; auto). exact IHb. }
  specialize (Hin g Hg).
  destruct (inner_cases decode cond g g) as [E | [(fdp & E) | E]];
    rewrite E in *; [|discriminate | congruence].
  rewrite bind_nil_Done. exact IH.
Qed.

Lemma onData_total svcs st request :
  serving svcs st ->
  Forall (Forall (fun b => decode b <> None)) (fileDescriptorProtos st) ->
  outcome (onData decode st request) = Done tt.
Proof.
  intros Hserving Hdec.
  apply registerAll_Done in Hserving as (Hne & Hsv & _). simpl in Hsv.
  destruct (JS.truthy (listServices request)) eqn:Hl.
  - rewrite onData_listServices; [reflexivity | exact Hl | now rewrite Hsv].
  - destruct (onData_cases st request) as [(o & l & E & _) | (e & E)];
      [now rewrite E|].
    exfalso.
    destruct (JS.truthy (fileContainingSymbol request)
              || JS.truthy (fileByFilename request)) eqn:Hs.
    + destruct (scan_cases decode (searchCondition request)
                  (fileDescriptorProtos st)) as [E' | [(p & d & _ & E') | E']].
      * rewrite (onData_missing _ _ Hl Hs E') in E. discriminate.
      * rewrite (onData_found _ _ _ _ Hl Hs E') in E. discriminate.
      * exact (scan_decodable _ _ Hdec E').
    + apply orb_false_iff in Hs as [Hs Hf].
      rewrite (onData_fallthrough _ _ Hl Hs Hf) in E. discriminate.
Qed.

(** With such a registry the only exception a request can raise is a
    decoding failure. *)
Lemma onData_serving_outcome svcs st request :
  serving svcs st ->
  outcome (onData decode st request) = Done tt
  \/ outcome (onData decode st request) = Throw MalformedSchema.
Proof.
  intros Hserving.
  apply registerAll_Done in Hserving as (Hne & Hsv & _). simpl in Hsv.
  destruct (JS.truthy (listServices request)) eqn:Hl.
  - left. rewrite onData_listServices;
      [reflexivity | exact Hl | now rewrite Hsv].
  - destruct (JS.truthy (fileContainingSymbol request)
              || JS.truthy (fileByFilename request)) eqn:Hs.
    + destruct (scan_cases decode (searchCondition request)
                  (fileDescriptorProtos st)) as [E | [(p & d & _ & E) | E]].
      * left. now rewrite (onData_missing _ _ Hl Hs E).
      * left. now rewrite (onData_found _ _ _ _ Hl Hs E).
      * right. now rewrite (onData_malformed _ _ Hl Hs E).
    + apply orb_false_iff in Hs as [Hs Hf].
      left. now rewrite (onData_fallthrough _ _ Hl Hs Hf).
Qed.

End ListenerFacts.

(** ** The stream *)

Lemma writes_app (t t' : list Effect) :
  writes (t ++ t') = writes t ++ writes t'.
Proof.
  induction t as [|e t IH]; [reflexivity|].
  destruct e; simpl; now rewrite IH.
Qed.

Lemma exchange_app (t t' : list Effect) :
  exchange (t ++ t') = exchange t ++ exchange t'.
Proof.
  induction t as [|e t IH]; [reflexivity|].
  destruct e as [[] | |]; simpl; now rewrite IH.
Qed.

Lemma bind_trace_outcome {A B : Type} (m : Eff A) (k : A -> Eff B) (a : A) :
  outcome m = Done a ->
  bind m k = (trace m ++ trace (k a), outcome (k a)).
Proof.
  destruct m as [t [a'|e]]; simpl; intros H; inversion H; subst.
  now destruct (k a).
Qed.

Section StreamFacts.

Variable decode : Buffer -> option FileDescriptorProto.t.
Variable st : Registry.

Lemma deliver_app pre post :
  outcome (deliver decode st pre) = Done tt ->
  deliver decode st (pre ++ post)
  = (trace (deliver decode st pre) ++ trace (deliver decode st post),
     outcome (deliver decode st post)).
Proof.
  induction pre as [|ev pre IH]; cbn [app deliver]; intros H.
  - now destruct (deliver decode st post).
  - destruct (emit decode st ev) as [t [[]|e]] eqn:E; simpl in H |- *.
    + destruct (deliver decode st pre) as [t1 r1] eqn:E1.
      simpl in H. subst r1. rewrite (IH eq_refl). simpl.
      now rewrite app_assoc.
    + discriminate.
Qed.

(** The requests of a stream whose listener never throws: the trace is
    the traces of the requests, one after the other. *)
Lemma deliver_data reqs :
  Forall (fun r => outcome (onData decode st r) = Done tt) reqs ->
  deliver decode st (map data reqs)
  = (flat_map (fun r => trace (onData decode st r)) reqs, Done tt).
Proof.
  induction 1 as [|r reqs Hr _ IH]; [reflexivity|].
  cbn [map deliver emit flat_map].
  rewrite (bind_trace_outcome _ _ tt Hr), IH. reflexivity.
Qed.

Lemma writes_data reqs :
  Forall (fun r => outcome (onData decode st r) = Done tt) reqs ->
  Forall2 (fun r o => writes (trace (onData decode st r)) = [o]) reqs
    (writes (flat_map (fun r => trace (onData decode st r)) reqs)).
Proof.
  induction 1 as [|r reqs Hr _ IH]; [constructor|].
  cbn [flat_map]. rewrite writes_app.
  destruct (onData_Done decode st r Hr) as (o & l & E & _).
  assert (Hw : writes (trace (onData decode st r)) = [o]) by now rewrite E.
  rewrite Hw. simpl. constructor; [exact Hw | exact IH].
Qed.

Lemma exchange_data reqs :
  Forall (fun r => outcome (onData decode st r) = Done tt) reqs ->
  exchange (flat_map (fun r => trace (onData decode st r)) reqs)
  = flat_map (fun r => console_log (LogData r)
                       :: map call_write (writes (trace (onData decode st r))))
      reqs.
Proof.
  induction 1 as [|r reqs Hr _ IH]; [reflexivity|].
  cbn [flat_map]. rewrite exchange_app, IH.
  destruct (onData_Done decode st r Hr) as (o & l & E & Hl).
  rewrite E. destruct l; (discriminate || reflexivity).
Qed.

(** A cancellation changes neither what the stream writes nor how the
    session finishes. *)
Lemma deliver_cancelled pre post :
  writes (trace (deliver decode st (pre ++ cancelled :: post)))
  = writes (trace (deliver decode st (pre ++ post)))
  /\ outcome (deliver decode st (pre ++ cancelled :: post))
     = outcome (deliver decode st (pre ++ post)).
Proof.
  induction pre as [|ev pre [IHw IHo]]; cbn [app deliver].
  - cbn [emit]. unfold onCancelled, perform. simpl.
    now destruct (deliver decode st post).
  - destruct (emit decode st ev) as [t [[]|e]]; simpl; [|auto].
    destruct (deliver decode st (pre ++ cancelled :: post)) as [t1 r1].
    destruct (deliver decode st (pre ++ post)) as [t2 r2].
    simpl in *. rewrite !writes_app, IHw, IHo. auto.
Qed.

End StreamFacts.

(** * The claims *)

(** C1, as amended. A [fileContainingSymbol] request for a non-empty
    symbol [s] walks the descriptor groups in registration order and the
    buffers of each group in order. A buffer matches exactly when its decoded package is [s] or
    the package-qualified name of one of its services, messages or enums
    is [s]. When the buffers before the first matching one decode without
    matching, the response is a [fileDescriptorResponse] holding the whole
    group of that buffer, unmodified and in its original order: the first
    matching group in registration order is the one returned. *)
Theorem fileContainingSymbol_returns_first_matching_group
    (decode : Buffer -> option FileDescriptorProto.t)
    (svcs : list ServiceDefinition) (st : Registry) (request : Request)
    (s : string)
    (groupsBefore : list (list Buffer)) (bufsBefore : list Buffer)
    (proto : Buffer) (bufsAfter : list Buffer)
    (groupsAfter : list (list Buffer)) (fdp : FileDescriptorProto.t) :
  serving svcs st ->
  descriptorGroups svcs
  = groupsBefore ++ (bufsBefore ++ proto :: bufsAfter) :: groupsAfter ->
  JS.truthy (listServices request) = false ->
  fileContainingSymbol request = Some s ->
  s <> "" ->
  Forall (Forall (withoutSymbol decode s)) groupsBefore ->
  Forall (withoutSymbol decode s) bufsBefore ->
  decode proto = Some fdp ->
  declares fdp s ->
  (forall d, symbolMatch d (fileContainingSymbol request) = true
             <-> declares d s)
  /\ onData decode st request
     = ([console_log (LogData request);
         call_write (fileDescriptorResponse (bufsBefore ++ proto :: bufsAfter));
         console_log (LogSentFileDescriptor (FileDescriptorProto.name fdp))],
        Done tt).
Proof.
  intros Hserving Hgroups Hl Hs Hne Hgb Hbb Hd Hm.
  split; [intros d; rewrite Hs; apply symbolMatch_declares|].
  apply registerAll_Done in Hserving as (_ & _ & Hfd). simpl in Hfd.
  assert (Ht : JS.truthy (fileContainingSymbol request) = true)
    by (rewrite Hs; now apply truthy_Some).
  assert (Hcond : forall d, searchCondition request d = symbolMatch d (Some s))
    by (intros d; unfold searchCondition; now rewrite Ht, Hs).
  assert (Hskip : forall b, withoutSymbol decode s b ->
                            skipped decode (searchCondition request) b).
  { intros b (d & Hb & Hn). exists d. split; [exact Hb|].
    rewrite Hcond. now apply symbolMatch_false. }
  apply onData_found; [exact Hl | now rewrite Ht |].
  rewrite Hfd, Hgroups. apply scan_found; trivial.
  - eapply Forall_impl; [|exact Hgb].
    intros g Hg. eapply Forall_impl; [|exact Hg]. exact Hskip.
  - eapply Forall_impl; [|exact Hbb]. exact Hskip.
  - rewrite Hcond. now apply symbolMatch_declares.
Qed.

(** C2. With N services registered, with or without schema buffers, a
    request that reaches the ListServices branch is answered by a
    [listServicesResponse] of exactly N entries, in registration order,
    each the qualified name of the service registered at that position. *)
Theorem listServices_lists_every_registered_name
    (decode : Buffer -> option FileDescriptorProto.t)
    (svcs : list ServiceDefinition) (names : list string)
    (st : Registry) (request : Request) :
  serving svcs st ->
  Forall2 definesService svcs names ->
  JS.truthy (listServices request) = true ->
  onData decode st request
  = ([console_log (LogData request);
      call_write (listServicesResponse (map Some names));
      console_log LogSentListServices], Done tt)
  /\ List.length names = List.length svcs.
Proof.
  intros Hserving Hnames Hl.
  apply registerAll_Done in Hserving as (Hne & Hsv & _). simpl in Hsv.
  split; [|symmetry; eapply Forall2_length; exact Hnames].
  rewrite onData_listServices; [|exact Hl | now rewrite Hsv].
  rewrite Hsv.
  assert (E : map listedName svcs = map Some names).
  { clear -Hnames.
    induction Hnames as [|s q svcs names Hq _ IH]; [reflexivity|].
    cbn [map]. rewrite IH. f_equal.
    destruct Hq as (key & m & rest & method & -> & Hpath & Hocc).
    cbn [listedName]. rewrite Hpath. now apply split_methodPath. }
  now rewrite E.
Qed.

(** C3, as amended. A request whose [listServices] field carries a
    non-empty string, whatever the string, takes the ListServices branch
    and is answered by a [listServicesResponse]; a [listServices] field
    carrying the empty string is treated as an absent field. *)
Theorem listServices_dispatch_on_nonempty_value
    (decode : Buffer -> option FileDescriptorProto.t)
    (svcs : list ServiceDefinition) (st : Registry) (request : Request)
    (value : string) :
  serving svcs st ->
  listServices request = Some value ->
  (value <> "" ->
   exists entries,
     onData decode st request
     = ([console_log (LogData request);
         call_write (listServicesResponse entries);
         console_log LogSentListServices], Done tt))
  /\ (value = "" ->
      writes (trace (onData decode st request))
      = writes (trace (onData decode st (withoutListServices request)))
      /\ outcome (onData decode st request)
         = outcome (onData decode st (withoutListServices request))).
Proof.
  intros Hserving Hv.
  apply registerAll_Done in Hserving as (Hne & Hsv & _). simpl in Hsv.
  split.
  - intros Hnonempty. eexists. apply onData_listServices.
    + rewrite Hv. now apply truthy_Some.
    + now rewrite Hsv.
  - intros ->. unfold onData. rewrite Hv. cbn [JS.truthy String.eqb negb].
    cbn [withoutListServices listServices fileContainingSymbol fileByFilename
         JS.truthy].
    destruct (JS.truthy (fileContainingSymbol request)).
    + cbn [perform bind].
      destruct (forOf (fileDescriptorProtos st) _) as [t [[]|e]];
        split; reflexivity.
    + destruct (JS.truthy (fileByFilename request)).
      * cbn [perform bind].
        destruct (forOf (fileDescriptorProtos st) _) as [t [[]|e]];
          split; reflexivity.
      * split; reflexivity.
Qed.

(** C4, as amended. A [fileByFilename] request for the name [f] that
    reaches its branch walks the groups and buffers in the same order; a
    buffer matches exactly when its decoded file name is [f]. When the
    buffers before the
    first matching one decode without matching, the response is a
    [fileDescriptorResponse] holding the whole group of that buffer; when
    every buffer decodes and none matches, it is an [errorResponse] with
    the code [NOT_FOUND]. *)
Theorem fileByFilename_group_or_not_found
    (decode : Buffer -> option FileDescriptorProto.t)
    (svcs : list ServiceDefinition) (st : Registry) (request : Request)
    (f : string) :
  serving svcs st ->
  JS.truthy (listServices request) = false ->
  JS.truthy (fileContainingSymbol request) = false ->
  fileByFilename request = Some f ->
  f <> "" ->
  (forall d, filenameMatch d (fileByFilename request) = true
             <-> FileDescriptorProto.name d = f)
  /\ (forall groupsBefore bufsBefore proto bufsAfter groupsAfter fdp,
        descriptorGroups svcs
        = groupsBefore ++ (bufsBefore ++ proto :: bufsAfter) :: groupsAfter ->
        Forall (Forall (notNamed decode f)) groupsBefore ->
        Forall (notNamed decode f) bufsBefore ->
        decode proto = Some fdp ->
        FileDescriptorProto.name fdp = f ->
        onData decode st request
        = ([console_log (LogData request);
            call_write
              (fileDescriptorResponse (bufsBefore ++ proto :: bufsAfter));
            console_log (LogSentFileDescriptor (FileDescriptorProto.name fdp))],
           Done tt))
  /\ (Forall (Forall (notNamed decode f)) (descriptorGroups svcs) ->
      onData decode st request
      = ([console_log (LogData request);
          call_write (errorResponse status.NOT_FOUND);
          console_log LogSentNotFound], Done tt)).
Proof.
  intros Hserving Hl Hs Hf Hne.
  apply registerAll_Done in Hserving as (_ & _ & Hfd). simpl in Hfd.
  assert (Ht : JS.truthy (fileByFilename request) = true)
    by (rewrite Hf; now apply truthy_Some).
  assert (Hor : JS.truthy (fileContainingSymbol request)
                || JS.truthy (fileByFilename request) = true)
    by now rewrite Hs, Ht.
  assert (Hcond : forall d,
             searchCondition request d = filenameMatch d (Some f))
    by (intros d; unfold searchCondition; now rewrite Hs, Hf).
  assert (Hskip : forall b, notNamed decode f b ->
                            skipped decode (searchCondition request) b).
  { intros b (d & Hb & Hn). exists d. split; [exact Hb|].
    rewrite Hcond. now apply filenameMatch_false. }
  assert (Hskips : forall gs, Forall (Forall (notNamed decode f)) gs ->
             Forall (Forall (skipped decode (searchCondition request))) gs).
  { intros gs Hgs. eapply Forall_impl; [|exact Hgs].
    intros g Hg. eapply Forall_impl; [|exact Hg]. exact Hskip. }
  split; [intros d; rewrite Hf; apply filenameMatch_name|]. split.
  - intros gb bb proto ba ga fdp Hgroups Hgb Hbb Hd Hm.
    apply onData_found; [exact Hl | exact Hor |].
    rewrite Hfd, Hgroups. apply scan_found; auto.
    + eapply Forall_impl; [|exact Hbb]. exact Hskip.
    + rewrite Hcond. now apply filenameMatch_name.
  - intros Hall. apply onData_missing; [exact Hl | exact Hor |].
    rewrite Hfd. apply scan_missing. auto.
Qed.

(** C5, as amended. A [fileContainingSymbol] request whose non-empty
    symbol matches no buffer of any registered group (every buffer
    decodes, and neither its package nor any of its package-qualified
    service, message or enum names is the symbol) is answered by exactly
    one response, an [errorResponse] with the code [NOT_FOUND]. *)
Theorem fileContainingSymbol_not_found
    (decode : Buffer -> option FileDescriptorProto.t)
    (svcs : list ServiceDefinition) (st : Registry) (request : Request)
    (s : string) :
  serving svcs st ->
  JS.truthy (listServices request) = false ->
  fileContainingSymbol request = Some s ->
  s <> "" ->
  Forall (Forall (withoutSymbol decode s)) (descriptorGroups svcs) ->
  onData decode st request
  = ([console_log (LogData request);
      call_write (errorResponse status.NOT_FOUND);
      console_log LogSentNotFound], Done tt)
  /\ writes (trace (onData decode st request))
     = [errorResponse status.NOT_FOUND].
Proof.
  intros Hserving Hl Hs Hne Hall.
  apply registerAll_Done in Hserving as (_ & _ & Hfd). simpl in Hfd.
  assert (Ht : JS.truthy (fileContainingSymbol request) = true)
    by (rewrite Hs; now apply truthy_Some).
  assert (E : onData decode st request
              = ([console_log (LogData request);
                  call_write (errorResponse status.NOT_FOUND);
                  console_log LogSentNotFound], Done tt)).
  { apply onData_missing; [exact Hl | now rewrite Ht |].
    rewrite Hfd. apply scan_missing.
    eapply Forall_impl; [|exact Hall].
    intros g Hg. eapply Forall_impl; [|exact Hg].
    intros b (d & Hb & Hn). exists d. split; [exact Hb|].
    unfold searchCondition. rewrite Ht, Hs. now apply symbolMatch_false. }
  split; [exact E | now rewrite E].
Qed.

(** C6. A request that populates none of [listServices],
    [fileContainingSymbol] and [fileByFilename] (a
    [fileContainingExtension] request, an [allExtensionNumbersOfType]
    request, or a request with no recognized field) is answered by exactly
    one response, an [errorResponse] with the code [UNIMPLEMENTED], and the
    listener returns normally. *)
Theorem unrecognized_request_is_unimplemented
    (decode : Buffer -> option FileDescriptorProto.t)
    (st : Registry) (request : Request) :
  listServices request = None ->
  fileContainingSymbol request = None ->
  fileByFilename request = None ->
  onData decode st request
  = ([console_log (LogData request);
      call_write (errorResponse status.UNIMPLEMENTED);
      console_log LogSentUnimplemented], Done tt)
  /\ writes (trace (onData decode st request))
     = [errorResponse status.UNIMPLEMENTED].
Proof.
  intros Hl Hs Hf.
  assert (E : onData decode st request
              = ([console_log (LogData request);
                  call_write (errorResponse status.UNIMPLEMENTED);
                  console_log LogSentUnimplemented], Done tt))
    by (apply onData_fallthrough; [rewrite Hl | rewrite Hs | rewrite Hf];
        reflexivity).
  split; [exact E | now rewrite E].
Qed.

(** C7. On one stream of a listening server, as long as no stored
    buffer fails to decode, the session writes exactly one response for
    each request, before the next request is handed to the listener, and
    the responses come in the order of the requests. *)
Theorem one_response_per_request_in_order
    (decode : Buffer -> option FileDescriptorProto.t)
    (svcs : list ServiceDefinition) (st : Registry) (reqs : list Request) :
  serving svcs st ->
  Forall (fun r => outcome (onData decode st r) <> Throw MalformedSchema)
    reqs ->
  Forall2 (fun r o => writes (trace (onData decode st r)) = [o]) reqs
    (writes (trace (ServerReflectionInfo decode st (map data reqs))))
  /\ exchange (trace (ServerReflectionInfo decode st (map data reqs)))
     = flat_map (fun r => console_log (LogData r)
                          :: map call_write
                               (writes (trace (onData decode st r))))
         reqs
  /\ outcome (ServerReflectionInfo decode st (map data reqs)) = Done tt.
Proof.
  intros Hserving Hdec.
  assert (H : Forall (fun r => outcome (onData decode st r) = Done tt) reqs).
  { eapply Forall_impl; [|exact Hdec]. intros r Hr.
    destruct (onData_serving_outcome decode svcs st r Hserving) as [E | E];
      [exact E | contradiction]. }
  unfold ServerReflectionInfo.
  rewrite (deliver_data decode st reqs H).
  cbn [perform bind trace outcome fst snd app writes exchange].
  split; [now apply writes_data|].
  split; [now apply exchange_data | reflexivity].
Qed.

(** C8. When, during a [fileContainingSymbol] or [fileByFilename] search,
    a stored buffer fails to decode, the listener writes no response for
    that request and the failure leaves it as an exception: the buffer is
    not skipped, no [errorResponse] is written, and the session ends with
    that exception, the later events of the stream unanswered. *)
Theorem decode_failure_propagates
    (decode : Buffer -> option FileDescriptorProto.t)
    (st : Registry) (request : Request)
    (groupsBefore : list (list Buffer)) (bufsBefore : list Buffer)
    (proto : Buffer) (bufsAfter : list Buffer)
    (groupsAfter : list (list Buffer)) (pre post : list Event) :
  JS.truthy (listServices request) = false ->
  JS.truthy (fileContainingSymbol request)
  || JS.truthy (fileByFilename request) = true ->
  fileDescriptorProtos st
  = groupsBefore ++ (bufsBefore ++ proto :: bufsAfter) :: groupsAfter ->
  Forall (Forall (skipped decode (searchCondition request))) groupsBefore ->
  Forall (skipped decode (searchCondition request)) bufsBefore ->
  decode proto = None ->
  outcome (deliver decode st pre) = Done tt ->
  onData decode st request
  = ([console_log (LogData request)], Throw MalformedSchema)
  /\ ServerReflectionInfo decode st (pre ++ data request :: post)
     = (trace (ServerReflectionInfo decode st pre)
        ++ [console_log (LogData request)], Throw MalformedSchema)
  /\ writes (trace (ServerReflectionInfo decode st
                      (pre ++ data request :: post)))
     = writes (trace (ServerReflectionInfo decode st pre)).
Proof.
  intros Hl Hs Hfd Hgb Hbb Hd Hpre.
  assert (E : onData decode st request
              = ([console_log (LogData request)], Throw MalformedSchema)).
  { apply onData_malformed; [exact Hl | exact Hs |].
    rewrite Hfd. now apply scan_malformed. }
  assert (E' : ServerReflectionInfo decode st (pre ++ data request :: post)
               = (trace (ServerReflectionInfo decode st pre)
                  ++ [console_log (LogData request)], Throw MalformedSchema)).
  { unfold ServerReflectionInfo. rewrite (deliver_app decode st _ _ Hpre).
    cbn [deliver emit]. rewrite E.
    destruct (deliver decode st pre) as [t r]. reflexivity. }
  split; [exact E|]. split; [exact E'|].
  rewrite E'. cbn [trace fst]. rewrite writes_app. simpl. apply app_nil_r.
Qed.

(** C9, as amended. The listener of the cancellation signal only logs:
    it writes nothing and keeps no state, so a cancellation changes
    neither the responses the session writes for the other events of the
    stream nor how the session finishes. *)
Theorem cancellation_changes_no_write
    (decode : Buffer -> option FileDescriptorProto.t)
    (st : Registry) (pre post : list Event) :
  onCancelled = ([console_log LogCancelled], Done tt)
  /\ writes (trace (ServerReflectionInfo decode st (pre ++ cancelled :: post)))
     = writes (trace (ServerReflectionInfo decode st (pre ++ post)))
  /\ outcome (ServerReflectionInfo decode st (pre ++ cancelled :: post))
     = outcome (ServerReflectionInfo decode st (pre ++ post)).
Proof.
  split; [reflexivity|].
  destruct (deliver_cancelled decode st pre post) as [Hw Ho].
  unfold ServerReflectionInfo. cbn [perform bind].
  destruct (deliver decode st (pre ++ cancelled :: post)) as [t1 r1].
  destruct (deliver decode st (pre ++ post)) as [t2 r2].
  simpl in *. auto.
Qed.

(** C10. A request whose only populated field is [fileContainingSymbol]
    or [fileByFilename], carrying the empty string, is answered by an
    [errorResponse] with the code [UNIMPLEMENTED]: the dispatch tests each
    field for truthiness, so no search is run and [NOT_FOUND] is not sent. *)
Theorem empty_search_string_is_unimplemented
    (decode : Buffer -> option FileDescriptorProto.t) (st : Registry) :
  onData decode st (mkRequest None (Some "") None None None)
  = ([console_log (LogData (mkRequest None (Some "") None None None));
      call_write (errorResponse status.UNIMPLEMENTED);
      console_log LogSentUnimplemented], Done tt)
  /\ onData decode st (mkRequest None None (Some "") None None)
     = ([console_log (LogData (mkRequest None None (Some "") None None));
         call_write (errorResponse status.UNIMPLEMENTED);
         console_log LogSentUnimplemented], Done tt).
Proof. split; reflexivity. Qed.

(** * The claims on the example registry *)

(** The example of the specification: one service [greeter.Greeter] with
    a group of one buffer whose package is [greeter]. *)
Example greeter_alone :
  let st := fst (registerAll emptyRegistry [Sample.greeterService]) in
  writes (trace (ServerReflectionInfo Wire.decode st
                   [data (Sample.askSymbol "greeter.Greeter");
                    data (Sample.askSymbol "greeter");
                    data (Sample.askSymbol "nope.Nope");
                    end_]))
  = [fileDescriptorResponse [Sample.greeterProto];
     fileDescriptorResponse [Sample.greeterProto];
     errorResponse status.NOT_FOUND].
Proof. reflexivity. Qed.

Ltac decodes_without lemma :=
  repeat constructor; eexists;
  (split; [reflexivity | apply lemma; reflexivity]).

(** C1 on the example. ["greeter.Echo"] is not in the group of the greeter
    service nor in the first buffer of the group of the echo service: the
    whole second group is returned. ["greeter"] is the package of a buffer
    of both groups: the first group is returned. *)
Lemma fileContainingSymbol_returns_first_matching_group_witness :
  onData Wire.decode Sample.registry (Sample.askSymbol "greeter.Echo")
  = ([console_log (LogData (Sample.askSymbol "greeter.Echo"));
      call_write
        (fileDescriptorResponse [Sample.commonProto; Sample.echoProto]);
      console_log (LogSentFileDescriptor "echo.proto")], Done tt)
  /\ onData Wire.decode Sample.registry (Sample.askSymbol "greeter")
     = ([console_log (LogData (Sample.askSymbol "greeter"));
         call_write (fileDescriptorResponse [Sample.greeterProto]);
         console_log (LogSentFileDescriptor "greeter.proto")], Done tt).
Proof.
  split.
  - refine (proj2 (fileContainingSymbol_returns_first_matching_group
                     Wire.decode
                     [Sample.greeterService; Sample.healthService;
                      Sample.echoService]
                     Sample.registry (Sample.askSymbol "greeter.Echo")
                     "greeter.Echo"
                     [[Sample.greeterProto]] [Sample.commonProto]
                     Sample.echoProto [] []
                     (FileDescriptorProto.mk "echo.proto" "greeter"
                        [Named.mk "EchoRequest"] [] [Named.mk "Echo"])
                     _ _ _ _ _ _ _ _ _));
      try reflexivity; try discriminate.
    + decodes_without symbolMatch_false.
    + decodes_without symbolMatch_false.
    + apply symbolMatch_declares. reflexivity.
  - refine (proj2 (fileContainingSymbol_returns_first_matching_group
                     Wire.decode
                     [Sample.greeterService; Sample.healthService;
                      Sample.echoService]
                     Sample.registry (Sample.askSymbol "greeter")
                     "greeter"
                     [] [] Sample.greeterProto []
                     [[Sample.commonProto; Sample.echoProto]]
                     (FileDescriptorProto.mk "greeter.proto" "greeter"
                        [Named.mk "HelloRequest"; Named.mk "HelloReply"] []
                        [Named.mk "Greeter"])
                     _ _ _ _ _ _ _ _ _));
      try reflexivity; try discriminate.
    + constructor.
    + constructor.
    + left. reflexivity.
Defined.

(** C1 as stated fails on the empty symbol: the first buffer of the second
    group declares no package, so its package is the symbol, and no buffer
    of the first group matches; the request is nevertheless answered
    [UNIMPLEMENTED], not with the second group. *)
Lemma fileContainingSymbol_empty_symbol_counterexample :
  Forall (Forall (withoutSymbol Wire.decode "")) [[Sample.greeterProto]]
  /\ (exists fdp, Wire.decode Sample.commonProto = Some fdp /\ declares fdp "")
  /\ fileDescriptorProtos Sample.registry
     = [[Sample.greeterProto]; [Sample.commonProto; Sample.echoProto]]
  /\ writes (trace (onData Wire.decode Sample.registry (Sample.askSymbol "")))
     = [errorResponse status.UNIMPLEMENTED].
Proof.
  split; [decodes_without symbolMatch_false|].
  split; [eexists; split; [reflexivity | left; reflexivity]|].
  split; reflexivity.
Qed.

(** C2 on the example: three services, the second without schema
    buffers. *)
Lemma listServices_lists_every_registered_name_witness :
  onData Wire.decode Sample.registry (Sample.askListServices "*")
  = ([console_log (LogData (Sample.askListServices "*"));
      call_write
        (listServicesResponse
           [Some "greeter.Greeter"; Some "grpc.health.v1.Health";
            Some "greeter.Echo"]);
      console_log LogSentListServices], Done tt)
  /\ List.length ["greeter.Greeter"; "grpc.health.v1.Health"; "greeter.Echo"]
     = List.length
         [Sample.greeterService; Sample.healthService; Sample.echoService].
Proof.
  refine (listServices_lists_every_registered_name
            Wire.decode
            [Sample.greeterService; Sample.healthService; Sample.echoService]
            ["greeter.Greeter"; "grpc.health.v1.Health"; "greeter.Echo"]
            Sample.registry (Sample.askListServices "*") _ _ _).
  - reflexivity.
  - repeat constructor.
    + exists "sayHello", (Sample.method "/greeter.Greeter/SayHello"
                            (Some [Sample.greeterProto])), [], "SayHello".
      repeat split.
    + exists "check",
        (MethodDefinition.mk "/grpc.health.v1.Health/Check" None),
        [("watch", MethodDefinition.mk "/grpc.health.v1.Health/Watch" None)],
        "Check".
      repeat split.
    + exists "echo", (Sample.method "/greeter.Echo/Echo"
                        (Some [Sample.commonProto; Sample.echoProto])),
        [], "Echo".
      repeat split.
  - reflexivity.
Defined.

(** C3 as stated fails on the empty string: a request whose [listServices]
    field is present and empty is answered [UNIMPLEMENTED]. *)
Lemma listServices_empty_string_counterexample :
  listServices (Sample.askListServices "") = Some ""%string
  /\ onData Wire.decode Sample.registry (Sample.askListServices "")
     = ([console_log (LogData (Sample.askListServices ""));
         call_write (errorResponse status.UNIMPLEMENTED);
         console_log LogSentUnimplemented], Done tt).
Proof. split; reflexivity. Qed.

(** C3 as amended, on the example: the value ["x"] lists the services,
    the empty value is answered as the request without the field is. *)
Lemma listServices_dispatch_on_nonempty_value_witness :
  (exists entries,
     onData Wire.decode Sample.registry (Sample.askListServices "x")
     = ([console_log (LogData (Sample.askListServices "x"));
         call_write (listServicesResponse entries);
         console_log LogSentListServices], Done tt))
  /\ writes (trace (onData Wire.decode Sample.registry
                      (Sample.askListServices "")))
     = writes (trace (onData Wire.decode Sample.registry
                        (withoutListServices (Sample.askListServices "")))).
Proof.
  split.
  - refine (proj1 (listServices_dispatch_on_nonempty_value
                     Wire.decode
                     [Sample.greeterService; Sample.healthService;
                      Sample.echoService]
                     Sample.registry (Sample.askListServices "x") "x" _ _) _).
    + reflexivity.
    + reflexivity.
    + discriminate.
  - refine (proj1 (proj2 (listServices_dispatch_on_nonempty_value
                            Wire.decode
                            [Sample.greeterService; Sample.healthService;
                             Sample.echoService]
                            Sample.registry (Sample.askListServices "") ""
                            _ _) _)).
    + reflexivity.
    + reflexivity.
    + reflexivity.
Defined.

(** C4 on the example: ["echo.proto"] names the second buffer of the second
    group, and no buffer is named ["greeter"]. *)
Lemma fileByFilename_group_or_not_found_witness :
  onData Wire.decode Sample.registry (Sample.askFilename "echo.proto")
  = ([console_log (LogData (Sample.askFilename "echo.proto"));
      call_write
        (fileDescriptorResponse [Sample.commonProto; Sample.echoProto]);
      console_log (LogSentFileDescriptor "echo.proto")], Done tt)
  /\ onData Wire.decode Sample.registry (Sample.askFilename "greeter")
     = ([console_log (LogData (Sample.askFilename "greeter"));
         call_write (errorResponse status.NOT_FOUND);
         console_log LogSentNotFound], Done tt).
Proof.
  split.
  - refine (proj1 (proj2 (fileByFilename_group_or_not_found
                            Wire.decode
                            [Sample.greeterService; Sample.healthService;
                             Sample.echoService]
                            Sample.registry (Sample.askFilename "echo.proto")
                            "echo.proto" _ _ _ _ _))
                  [[Sample.greeterProto]] [Sample.commonProto]
                  Sample.echoProto [] []
                  (FileDescriptorProto.mk "echo.proto" "greeter"
                     [Named.mk "EchoRequest"] [] [Named.mk "Echo"])
                  _ _ _ _ _);
      try reflexivity; try discriminate.
    + decodes_without filenameMatch_false.
    + decodes_without filenameMatch_false.
  - refine (proj2 (proj2 (fileByFilename_group_or_not_found
                            Wire.decode
                            [Sample.greeterService; Sample.healthService;
                             Sample.echoService]
                            Sample.registry (Sample.askFilename "greeter")
                            "greeter" _ _ _ _ _)) _);
      try reflexivity; try discriminate.
    decodes_without filenameMatch_false.
Defined.

(** C4 as stated fails when a stored buffer does not decode. In the
    broken registry the second buffer of the second group stops after a
    tag. No buffer decodes to a file named ["nope.proto"], yet the request
    for it is not answered [NOT_FOUND]: the listener throws and writes
    nothing. ["echo.proto"] names a buffer of the third group, yet the
    request for it is not answered with that group: the search throws on
    its way there. *)
Lemma fileByFilename_undecodable_buffer_counterexample :
  fileDescriptorProtos Sample.brokenRegistry
  = [[Sample.greeterProto];
     [Sample.commonProto; Sample.truncatedProto];
     [Sample.commonProto; Sample.echoProto]]
  /\ Wire.decode Sample.truncatedProto = None
  /\ Forall
       (Forall (fun proto =>
                  match Wire.decode proto with
                  | Some fdp =>
                      FileDescriptorProto.name fdp <> "nope.proto"%string
                  | None => True
                  end))
       (fileDescriptorProtos Sample.brokenRegistry)
  /\ onData Wire.decode Sample.brokenRegistry
       (Sample.askFilename "nope.proto")
     = ([console_log (LogData (Sample.askFilename "nope.proto"))],
        Throw MalformedSchema)
  /\ option_map FileDescriptorProto.name (Wire.decode Sample.echoProto)
     = Some "echo.proto"%string
  /\ onData Wire.decode Sample.brokenRegistry
       (Sample.askFilename "echo.proto")
     = ([console_log (LogData (Sample.askFilename "echo.proto"))],
        Throw MalformedSchema).
Proof.
  split; [reflexivity|]. split; [reflexivity|].
  split; [|repeat split; reflexivity].
  repeat constructor; vm_compute; discriminate.
Qed.

(** C5 on the example: the spec's ["nope.Nope"]. *)
Lemma fileContainingSymbol_not_found_witness :
  onData Wire.decode Sample.registry (Sample.askSymbol "nope.Nope")
  = ([console_log (LogData (Sample.askSymbol "nope.Nope"));
      call_write (errorResponse status.NOT_FOUND);
      console_log LogSentNotFound], Done tt)
  /\ writes (trace (onData Wire.decode Sample.registry
                      (Sample.askSymbol "nope.Nope")))
     = [errorResponse status.NOT_FOUND].
Proof.
  refine (fileContainingSymbol_not_found
            Wire.decode
            [Sample.greeterService; Sample.healthService; Sample.echoService]
            Sample.registry (Sample.askSymbol "nope.Nope") "nope.Nope"
            _ _ _ _ _);
    try reflexivity; try discriminate.
  decodes_without symbolMatch_false.
Defined.

(** C5 as stated fails on the empty symbol: it matches no buffer of the
    registry of the greeter service alone, and the answer is
    [UNIMPLEMENTED], not [NOT_FOUND]. *)
Lemma fileContainingSymbol_empty_symbol_not_found_counterexample :
  Forall (Forall (withoutSymbol Wire.decode ""))
    (fileDescriptorProtos
       (fst (registerAll emptyRegistry [Sample.greeterService])))
  /\ writes (trace (onData Wire.decode
                      (fst (registerAll emptyRegistry [Sample.greeterService]))
                      (Sample.askSymbol "")))
     = [errorResponse status.UNIMPLEMENTED].
Proof.
  split; [decodes_without symbolMatch_false | reflexivity].
Qed.

(** C6 on the example: an extension request. *)
Lemma unrecognized_request_is_unimplemented_witness :
  onData Wire.decode Sample.registry
    (Sample.askExtension "greeter.HelloRequest")
  = ([console_log (LogData (Sample.askExtension "greeter.HelloRequest"));
      call_write (errorResponse status.UNIMPLEMENTED);
      console_log LogSentUnimplemented], Done tt)
  /\ writes (trace (onData Wire.decode Sample.registry
                      (Sample.askExtension "greeter.HelloRequest")))
     = [errorResponse status.UNIMPLEMENTED].
Proof.
  refine (unrecognized_request_is_unimplemented
            Wire.decode Sample.registry
            (Sample.askExtension "greeter.HelloRequest") _ _ _);
    reflexivity.
Defined.

(** C7 on the example: three requests, three responses, in order. *)
Lemma one_response_per_request_in_order_witness :
  Forall2
    (fun r o => writes (trace (onData Wire.decode Sample.registry r)) = [o])
    [Sample.askListServices "*"; Sample.askSymbol "greeter";
     Sample.askFilename "x"]
    (writes (trace (ServerReflectionInfo Wire.decode Sample.registry
                      (map data [Sample.askListServices "*";
                                 Sample.askSymbol "greeter";
                                 Sample.askFilename "x"]))))
  /\ exchange (trace (ServerReflectionInfo Wire.decode Sample.registry
                        (map data [Sample.askListServices "*";
                                   Sample.askSymbol "greeter";
                                   Sample.askFilename "x"])))
     = [console_log (LogData (Sample.askListServices "*"));
        call_write
          (listServicesResponse
             [Some "greeter.Greeter"; Some "grpc.health.v1.Health";
              Some "greeter.Echo"]);
        console_log (LogData (Sample.askSymbol "greeter"));
        call_write (fileDescriptorResponse [Sample.greeterProto]);
        console_log (LogData (Sample.askFilename "x"));
        call_write (errorResponse status.NOT_FOUND)]
  /\ outcome (ServerReflectionInfo Wire.decode Sample.registry
                (map data [Sample.askListServices "*";
                           Sample.askSymbol "greeter";
                           Sample.askFilename "x"]))
     = Done tt.
Proof.
  refine (one_response_per_request_in_order
            Wire.decode
            [Sample.greeterService; Sample.healthService; Sample.echoService]
            Sample.registry
            [Sample.askListServices "*"; Sample.askSymbol "greeter";
             Sample.askFilename "x"] _ _).
  - reflexivity.
  - repeat constructor; discriminate.
Defined.

(** C8 on the example: the search for ["greeter.Echo"] passes over the
    group of the greeter service and the first buffer of the broken
    service, then meets the truncated buffer; the request that follows is
    never answered. *)
Lemma decode_failure_propagates_witness :
  onData Wire.decode Sample.brokenRegistry (Sample.askSymbol "greeter.Echo")
  = ([console_log (LogData (Sample.askSymbol "greeter.Echo"))],
     Throw MalformedSchema)
  /\ ServerReflectionInfo Wire.decode Sample.brokenRegistry
       ([data (Sample.askListServices "*")]
        ++ data (Sample.askSymbol "greeter.Echo")
           :: [data (Sample.askListServices "*")])
     = (trace (ServerReflectionInfo Wire.decode Sample.brokenRegistry
                 [data (Sample.askListServices "*")])
        ++ [console_log (LogData (Sample.askSymbol "greeter.Echo"))],
        Throw MalformedSchema)
  /\ writes (trace (ServerReflectionInfo Wire.decode Sample.brokenRegistry
                      ([data (Sample.askListServices "*")]
                       ++ data (Sample.askSymbol "greeter.Echo")
                          :: [data (Sample.askListServices "*")])))
     = writes (trace (ServerReflectionInfo Wire.decode Sample.brokenRegistry
                        [data (Sample.askListServices "*")])).
Proof.
  refine (decode_failure_propagates
            Wire.decode Sample.brokenRegistry
            (Sample.askSymbol "greeter.Echo")
            [[Sample.greeterProto]] [Sample.commonProto]
            Sample.truncatedProto [] [[Sample.commonProto; Sample.echoProto]]
            [data (Sample.askListServices "*")]
            [data (Sample.askListServices "*")]
            _ _ _ _ _ _ _);
    try reflexivity.
  - repeat constructor. eexists. split; reflexivity.
  - repeat constructor. eexists. split; reflexivity.
Defined.

(** C9 as stated fails: a request delivered after the cancellation signal
    is answered like any other. *)
Lemma response_written_after_cancellation_counterexample :
  ServerReflectionInfo Wire.decode Sample.registry
    [cancelled; data (Sample.askListServices "*")]
  = ([console_log LogStarted;
      console_log LogCancelled;
      console_log (LogData (Sample.askListServices "*"));
      call_write
        (listServicesResponse
           [Some "greeter.Greeter"; Some "grpc.health.v1.Health";
            Some "greeter.Echo"]);
      console_log LogSentListServices], Done tt).
Proof. reflexivity. Qed.

(** * Further properties of the code *)

(** ** Registration *)

Lemma descriptorGroups_app (a b : list ServiceDefinition) :
  descriptorGroups (a ++ b) = descriptorGroups a ++ descriptorGroups b.
Proof.
  induction a as [|s a IH]; [reflexivity|].
  cbn [app descriptorGroups]. rewrite IH.
  destruct (schemaBuffers s); reflexivity.
Qed.

Lemma descriptorGroups_length (svcs : list ServiceDefinition) :
  List.length (descriptorGroups svcs) <= List.length svcs.
Proof.
  induction svcs as [|s svcs IH]; [apply Nat.le_refl|].
  cbn [descriptorGroups]. destruct (schemaBuffers s); simpl; lia.
Qed.

(** What one registration does, case by case. *)
Lemma addReflectedService_cases (st : Registry) (service : ServiceDefinition) :
  (service = []
   /\ addReflectedService st service
      = (mkRegistry (services st ++ [service]) (fileDescriptorProtos st),
         Throw TypeError))
  \/ (service <> []
      /\ addReflectedService st service
         = (mkRegistry (services st ++ [service])
              (fileDescriptorProtos st ++ descriptorGroups [service]),
            Done tt)).
Proof.
  unfold addReflectedService. destruct service as [|[key m] rest]; simpl.
  - left. split; reflexivity.
  - right. split; [discriminate|].
    destruct (MethodDefinition.requestType m) as [rt|]; simpl;
      [destruct (MessageTypeDefinition.fileDescriptorProtos rt)|];
      simpl; rewrite ?app_nil_r; reflexivity.
Qed.

(** X1. Registration only appends: whatever services are registered, and
    whether or not a registration throws, both arrays keep what they held,
    in place; the services added are an initial part of those submitted,
    and no more descriptor groups are added than services. *)
Theorem registration_only_appends
    (svcs : list ServiceDefinition) (st : Registry) :
  exists added later groups,
    svcs = added ++ later
    /\ services (fst (registerAll st svcs)) = services st ++ added
    /\ fileDescriptorProtos (fst (registerAll st svcs))
       = fileDescriptorProtos st ++ groups
    /\ List.length groups <= List.length added.
Proof.
  revert st. induction svcs as [|s svcs IH]; intros st.
  - exists [], [], []. simpl. rewrite !app_nil_r. auto.
  - cbn [registerAll].
    destruct (addReflectedService_cases st s) as [[Hs E] | [Hs E]]; rewrite E.
    + exists [s], svcs, []. simpl. rewrite app_nil_r. auto.
    + destruct (IH (mkRegistry (services st ++ [s])
                      (fileDescriptorProtos st ++ descriptorGroups [s])))
        as (added & later & groups & Hsplit & Hsv & Hfd & Hlen).
      exists (s :: added), later, (descriptorGroups [s] ++ groups).
      cbn [services fileDescriptorProtos] in Hsv, Hfd.
      rewrite Hsv, Hfd, <- !app_assoc, Hsplit.
      repeat split; try reflexivity.
      rewrite length_app. pose proof (descriptorGroups_length [s]).
      simpl in *. lia.
Qed.

(** X2. A service definition without a method makes the registration
    throw a [TypeError] before [server.addService] is reached: whatever
    the registry holds, the definition is already in [services], no
    descriptor group is added, and the services submitted after it are not
    registered. *)
Theorem registration_stops_at_methodless_service
    (later : list ServiceDefinition) (st : Registry) :
  addReflectedService st []
  = (mkRegistry (services st ++ [[]]) (fileDescriptorProtos st),
     Throw TypeError)
  /\ registerAll st ([] :: later)
     = (mkRegistry (services st ++ [[]]) (fileDescriptorProtos st),
        Throw TypeError).
Proof.
  destruct (addReflectedService_cases st []) as [[_ E] | [Hne _]];
    [|congruence].
  split; [exact E|]. cbn [registerAll]. now rewrite E.
Qed.

(** ** What the answers depend on *)

Lemma listName_consulted (s : ServiceDefinition) :
  listName s
  = match consulted s with
    | None => throw TypeError
    | Some m => ret (nth_error (JS.split "/" (MethodDefinition.path m)) 1)
    end.
Proof.
  unfold listName, firstMethod, consulted. now destruct (Object_values s).
Qed.

Lemma schemaBuffers_consulted (s : ServiceDefinition) :
  schemaBuffers s
  = match consulted s with
    | None => None
    | Some m =>
        match MethodDefinition.requestType m with
        | None => None
        | Some rt => MessageTypeDefinition.fileDescriptorProtos rt
        end
    end.
Proof. unfold schemaBuffers, consulted. now destruct s as [|[key m] rest]. Qed.

Lemma mapM_listName_consulted (svcs svcs' : list ServiceDefinition) :
  Forall2 (fun s s' => consulted s = consulted s') svcs svcs' ->
  mapM listName svcs = mapM listName svcs'.
Proof.
  induction 1 as [|s s' svcs svcs' Hs _ IH]; [reflexivity|].
  cbn [mapM]. now rewrite IH, !listName_consulted, Hs.
Qed.

Lemma descriptorGroups_consulted (svcs svcs' : list ServiceDefinition) :
  Forall2 (fun s s' => consulted s = consulted s') svcs svcs' ->
  descriptorGroups svcs = descriptorGroups svcs'.
Proof.
  induction 1 as [|s s' svcs svcs' Hs _ IH]; [reflexivity|].
  cbn [descriptorGroups]. now rewrite IH, !schemaBuffers_consulted, Hs.
Qed.

(** The listener reads the registry through the listing of [services]
    and through [fileDescriptorProtos]. *)
Lemma onData_registry
    (decode : Buffer -> option FileDescriptorProto.t)
    (st st' : Registry) (request : Request) :
  mapM listName (services st) = mapM listName (services st') ->
  fileDescriptorProtos st = fileDescriptorProtos st' ->
  onData decode st request = onData decode st' request.
Proof.
  intros Hs Hfd. unfold onData. fold listName. now rewrite Hs, Hfd.
Qed.

Lemma mapM_listName_methodless (svcs : list ServiceDefinition) :
  In [] svcs -> mapM listName svcs = ([], Throw TypeError).
Proof.
  induction svcs as [|s svcs IH]; [contradiction|].
  intros [-> | Hin]; [reflexivity|].
  cbn [mapM]. rewrite (IH Hin).
  destruct s as [|[key m] rest]; reflexivity.
Qed.

(** X4. Of a service definition the server reads the first method only:
    two registrations whose definitions agree, one by one, on their first
    method give registries that answer every request alike, whatever the
    other methods are and carry. *)
Theorem only_first_method_is_consulted
    (decode : Buffer -> option FileDescriptorProto.t)
    (svcs svcs' : list ServiceDefinition) (st st' : Registry)
    (request : Request) :
  Forall2 (fun s s' => consulted s = consulted s') svcs svcs' ->
  serving svcs st ->
  serving svcs' st' ->
  onData decode st request = onData decode st' request.
Proof.
  intros Hc Hst Hst'.
  apply registerAll_Done in Hst as (_ & Hsv & Hfd).
  apply registerAll_Done in Hst' as (_ & Hsv' & Hfd').
  simpl in Hsv, Hfd, Hsv', Hfd'.
  apply onData_registry.
  - rewrite Hsv, Hsv'. now apply mapM_listName_consulted.
  - rewrite Hfd, Hfd'. now apply descriptorGroups_consulted.
Qed.

(** X5. A service registered without schema buffers is invisible to the
    searches: with or without it, every request that is not dispatched to
    ListServices gets the same answer. *)
Theorem service_without_buffers_is_not_searched
    (decode : Buffer -> option FileDescriptorProto.t)
    (before after : list ServiceDefinition) (s : ServiceDefinition)
    (st st' : Registry) (request : Request) :
  serving (before ++ after) st ->
  serving (before ++ s :: after) st' ->
  schemaBuffers s = None ->
  JS.truthy (listServices request) = false ->
  onData decode st request = onData decode st' request.
Proof.
  intros Hst Hst' Hs Hl.
  apply registerAll_Done in Hst as (_ & _ & Hfd).
  apply registerAll_Done in Hst' as (_ & _ & Hfd').
  simpl in Hfd, Hfd'.
  assert (E : fileDescriptorProtos st = fileDescriptorProtos st').
  { rewrite Hfd, Hfd', !descriptorGroups_app.
    cbn [descriptorGroups]. now rewrite Hs. }
  unfold onData. now rewrite Hl, E.
Qed.

(** X6. Listing the services decodes nothing: a request dispatched to
    ListServices gets the same answer whatever the decoder and the stored
    buffers are, so a stored buffer that does not decode never disturbs
    it. *)
Theorem listServices_reads_no_descriptor
    (decode decode' : Buffer -> option FileDescriptorProto.t)
    (st st' : Registry) (request : Request) :
  JS.truthy (listServices request) = true ->
  services st = services st' ->
  onData decode st request = onData decode' st' request.
Proof.
  intros Hl Hs. unfold onData. now rewrite Hl, Hs.
Qed.

(** X7. On a registry that holds a service definition without a method
    (the state a failed registration leaves), a request dispatched to
    ListServices makes the listener throw a [TypeError] before anything is
    written. *)
Theorem listServices_throws_on_methodless_service
    (decode : Buffer -> option FileDescriptorProto.t)
    (st : Registry) (request : Request) :
  JS.truthy (listServices request) = true ->
  In [] (services st) ->
  onData decode st request
  = ([console_log (LogData request)], Throw TypeError).
Proof.
  intros Hl Hin. unfold onData. rewrite Hl. fold listName.
  now rewrite (mapM_listName_methodless _ Hin).
Qed.

(** ** Dispatch *)

(** X8. The answer depends on the request only through the branch it is
    dispatched to and the value that branch reads: the value of
    [listServices], the fields of lower priority than the one that
    dispatches, and the two extension fields change nothing but the log
    line of the request. *)
Theorem answer_depends_on_dispatch_only
    (decode : Buffer -> option FileDescriptorProto.t)
    (st : Registry) (request request' : Request) :
  dispatch request = dispatch request' ->
  tl (trace (onData decode st request)) = tl (trace (onData decode st request'))
  /\ outcome (onData decode st request) = outcome (onData decode st request').
Proof.
  unfold dispatch, onData. intros H.
  destruct (JS.truthy (listServices request)),
           (JS.truthy (listServices request')),
           (JS.truthy (fileContainingSymbol request)),
           (JS.truthy (fileContainingSymbol request')),
           (JS.truthy (fileByFilename request)),
           (JS.truthy (fileByFilename request'));
    try discriminate;
    try (injection H as H; rewrite H);
    cbn [perform bind];
    try (destruct (mapM _ (services st)) as [t [names|e]]);
    try (destruct (forOf (fileDescriptorProtos st) _) as [t [[]|e]]);
    split; reflexivity.
Qed.

(** ** What a response tells *)

Section Inversion.

Variable decode : Buffer -> option FileDescriptorProto.t.
Variable cond : FileDescriptorProto.t -> bool.

(** The three ways the inner loop ends, with the buffer that decided. *)
Lemma inner_spec (protos bufs : list Buffer) :
  (Forall (skipped decode cond) bufs
   /\ forOf bufs (visit decode cond protos) = ([], Done Next))
  \/ (exists bufsBefore proto bufsAfter fdp,
        bufs = bufsBefore ++ proto :: bufsAfter
        /\ Forall (skipped decode cond) bufsBefore
        /\ decode proto = Some fdp /\ cond fdp = true
        /\ forOf bufs (visit decode cond protos) = found protos fdp)
  \/ (exists bufsBefore proto bufsAfter,
        bufs = bufsBefore ++ proto :: bufsAfter
        /\ Forall (skipped decode cond) bufsBefore
        /\ decode proto = None
        /\ forOf bufs (visit decode cond protos)
           = ([], Throw MalformedSchema)).
Proof.
  induction bufs as [|b bufs IH].
  - left. split; [constructor | reflexivity].
  - cbn [forOf]. destruct (decode b) as [fdp|] eqn:Hd.
    + destruct (cond fdp) eqn:Hc.
      * right; left. exists [], b, bufs, fdp.
        rewrite (visit_match _ _ _ _ _ Hd Hc). repeat split; auto.
      * assert (Hb : skipped decode cond b) by (exists fdp; auto).
        rewrite (visit_skipped _ _ _ _ Hb), bind_nil_Done.
        destruct IH as [[Hall E] | [(bb & p & ba & d & -> & Hbb & Hp & Hm & E)
                                   | (bb & p & ba & -> & Hbb & Hp & E)]].
        -- left. split; [constructor; assumption | exact E].
        -- right; left. exists (b :: bb), p, ba, d.
           repeat split; auto.
        -- right; right. exists (b :: bb), p, ba.
           repeat split; auto.
    + right; right. exists [], b, bufs.
      rewrite (visit_malformed _ _ _ _ Hd). repeat split; auto.
Qed.

(** The three ways the two loops end. *)
Lemma scan_spec (groups : list (list Buffer)) :
  (Forall (Forall (skipped decode cond)) groups
   /\ scan decode cond groups = ([], Done Next))
  \/ (exists groupsBefore bufsBefore proto bufsAfter groupsAfter fdp,
        groups
        = groupsBefore ++ (bufsBefore ++ proto :: bufsAfter) :: groupsAfter
        /\ Forall (Forall (skipped decode cond)) groupsBefore
        /\ Forall (skipped decode cond) bufsBefore
        /\ decode proto = Some fdp /\ cond fdp = true
        /\ scan decode cond groups
           = found (bufsBefore ++ proto :: bufsAfter) fdp)
  \/ (exists groupsBefore bufsBefore proto bufsAfter groupsAfter,
        groups
        = groupsBefore ++ (bufsBefore ++ proto :: bufsAfter) :: groupsAfter
        /\ Forall (Forall (skipped decode cond)) groupsBefore
        /\ Forall (skipped decode cond) bufsBefore
        /\ decode proto = None
        /\ scan decode cond groups = ([], Throw MalformedSchema)).
Proof.
  unfold scan. induction groups as [|g groups IH].
  - left. split; [constructor | reflexivity].
  - cbn [forOf].
    destruct (inner_spec g g)
      as [[Hg E] | [(bb & p & ba & d & Hsplit & Hbb & Hp & Hm & E)
                   | (bb & p & ba & Hsplit & Hbb & Hp & E)]]; rewrite E.
    + rewrite bind_nil_Done.
      destruct IH
        as [[Hall E'] | [(gb & bb & p & ba & ga & d & -> & Hgb & Hbb & Hp & Hm & E')
                        | (gb & bb & p & ba & ga & -> & Hgb & Hbb & Hp & E')]].
      * left. split; [constructor; assumption | exact E'].
      * right; left. exists (g :: gb), bb, p, ba, ga, d.
        repeat split; auto.
      * right; right. exists (g :: gb), bb, p, ba, ga.
        repeat split; auto.
    + right; left. exists [], bb, p, ba, groups, d.
      rewrite <- Hsplit. repeat split; auto.
    + right; right. exists [], bb, p, ba, groups.
      rewrite <- Hsplit. repeat split; auto.
Qed.

End Inversion.

Lemma methodless_or_not (svcs : list ServiceDefinition) :
  Forall (fun s => s <> []) svcs \/ In [] svcs.
Proof.
  induction svcs as [|s svcs [IH | IH]].
  - left. constructor.
  - destruct s as [|x s].
    + right. now left.
    + left. constructor; [discriminate | exact IH].
  - right. now right.
Qed.

(** Every way the data listener runs. *)
Lemma onData_spec
    (decode : Buffer -> option FileDescriptorProto.t)
    (st : Registry) (request : Request) :
  (dispatch request = ToListServices
   /\ Forall (fun s => s <> []) (services st)
   /\ onData decode st request
      = ([console_log (LogData request);
          call_write (listServicesResponse (map listedName (services st)));
          console_log LogSentListServices], Done tt))
  \/ (dispatch request = ToListServices
      /\ In [] (services st)
      /\ onData decode st request
         = ([console_log (LogData request)], Throw TypeError))
  \/ (JS.truthy (listServices request) = false
      /\ JS.truthy (fileContainingSymbol request)
         || JS.truthy (fileByFilename request) = true
      /\ ((Forall (Forall (skipped decode (searchCondition request)))
             (fileDescriptorProtos st)
           /\ onData decode st request
              = ([console_log (LogData request);
                  call_write (errorResponse status.NOT_FOUND);
                  console_log LogSentNotFound], Done tt))
          \/ (exists groupsBefore bufsBefore proto bufsAfter groupsAfter fdp,
                fileDescriptorProtos st
                = groupsBefore
                  ++ (bufsBefore ++ proto :: bufsAfter) :: groupsAfter
                /\ Forall (Forall (skipped decode (searchCondition request)))
                     groupsBefore
                /\ Forall (skipped decode (searchCondition request)) bufsBefore
                /\ decode proto = Some fdp
                /\ searchCondition request fdp = true
                /\ onData decode st request
                   = ([console_log (LogData request);
                       call_write
                         (fileDescriptorResponse
                            (bufsBefore ++ proto :: bufsAfter));
                       console_log
                         (LogSentFileDescriptor (FileDescriptorProto.name fdp))],
                      Done tt))
          \/ (exists groupsBefore bufsBefore proto bufsAfter groupsAfter,
                fileDescriptorProtos st
                = groupsBefore
                  ++ (bufsBefore ++ proto :: bufsAfter) :: groupsAfter
                /\ Forall (Forall (skipped decode (searchCondition request)))
                     groupsBefore
                /\ Forall (skipped decode (searchCondition request)) bufsBefore
                /\ decode proto = None
                /\ onData decode st request
                   = ([console_log (LogData request)],
                      Throw MalformedSchema))))
  \/ (dispatch request = ToUnimplemented
      /\ onData decode st request
         = ([console_log (LogData request);
             call_write (errorResponse status.UNIMPLEMENTED);
             console_log LogSentUnimplemented], Done tt)).
Proof.
  destruct (JS.truthy (listServices request)) eqn:Hl.
  - assert (Hd : dispatch request = ToListServices)
      by (unfold dispatch; now rewrite Hl).
    destruct (methodless_or_not (services st)) as [Hs | Hs].
    + left. repeat split; trivial. now apply onData_listServices.
    + right; left. repeat split; trivial.
      unfold onData. rewrite Hl. fold listName.
      now rewrite (mapM_listName_methodless _ Hs).
  - destruct (JS.truthy (fileContainingSymbol request)
              || JS.truthy (fileByFilename request)) eqn:Hs.
    + right; right; left. split; [reflexivity|]. split; [reflexivity|].
      destruct (scan_spec decode (searchCondition request)
                  (fileDescriptorProtos st))
        as [[Hall E]
           | [(gb & bb & p & ba & ga & d & Hsplit & Hgb & Hbb & Hp & Hm & E)
             | (gb & bb & p & ba & ga & Hsplit & Hgb & Hbb & Hp & E)]].
      * left. split; [exact Hall | now apply onData_missing].
      * right; left. exists gb, bb, p, ba, ga, d.
        repeat split; trivial. now apply onData_found.
      * right; right. exists gb, bb, p, ba, ga.
        repeat split; trivial. now apply onData_malformed.
    + apply orb_false_iff in Hs as [Hs Hf].
      right; right; right. split.
      * unfold dispatch. now rewrite Hl, Hs, Hf.
      * now apply onData_fallthrough.
Qed.

Ltac onData_by_cases decode st request :=
  destruct (onData_spec decode st request)
    as [(Hd & Hsv & E)
       | [(Hd & Hsv & E)
         | [(Hl & Hs &
             [[Hall E]
             | [(gb & bb & p & ba & ga & d & Hsplit & Hgb & Hbb & Hp & Hm & E)
               | (gb & bb & p & ba & ga & Hsplit & Hgb & Hbb & Hp & E)]])
           | (Hd & E)]]].

(** X9. Whatever the registry, the decoder and the request, the listener
    either returns having written exactly one response, or throws having
    written none: it never writes two responses, never returns without
    answering, never throws after it has answered. *)
Theorem listener_answers_once_or_throws
    (decode : Buffer -> option FileDescriptorProto.t)
    (st : Registry) (request : Request) :
  (exists o, writes (trace (onData decode st request)) = [o]
             /\ outcome (onData decode st request) = Done tt)
  \/ (exists e, writes (trace (onData decode st request)) = []
                /\ outcome (onData decode st request) = Throw e).
Proof.
  onData_by_cases decode st request; rewrite E;
    solve [left; eexists; split; reflexivity
          | right; eexists; split; reflexivity].
Qed.

(** X10. A [fileDescriptorResponse] is never made up: the group it
    carries is one of the registered groups, whole, and a buffer of that
    group decodes to a descriptor that satisfies the test of the request,
    every buffer visited before it having decoded and failed the test. *)
Theorem fileDescriptorResponse_is_a_matching_group
    (decode : Buffer -> option FileDescriptorProto.t)
    (st : Registry) (request : Request) (group : list Buffer) :
  In (call_write (fileDescriptorResponse group))
     (trace (onData decode st request)) ->
  JS.truthy (listServices request) = false
  /\ JS.truthy (fileContainingSymbol request)
     || JS.truthy (fileByFilename request) = true
  /\ exists groupsBefore bufsBefore proto bufsAfter groupsAfter fdp,
       fileDescriptorProtos st = groupsBefore ++ group :: groupsAfter
       /\ group = bufsBefore ++ proto :: bufsAfter
       /\ Forall (Forall (skipped decode (searchCondition request)))
            groupsBefore
       /\ Forall (skipped decode (searchCondition request)) bufsBefore
       /\ decode proto = Some fdp
       /\ searchCondition request fdp = true.
Proof.
  intros H. onData_by_cases decode st request; rewrite E in H; simpl in H;
    repeat (destruct H as [H | H]; try discriminate H); try contradiction.
  injection H as <-.
  split; [exact Hl|]. split; [exact Hs|].
  exists gb, bb, p, ba, ga, d. repeat split; trivial.
Qed.

(** X11. [NOT_FOUND] is sent only after the whole registry was searched:
    every stored buffer was decoded and failed the test of the request. *)
Theorem not_found_means_all_buffers_rejected
    (decode : Buffer -> option FileDescriptorProto.t)
    (st : Registry) (request : Request) :
  In (call_write (errorResponse status.NOT_FOUND))
     (trace (onData decode st request)) ->
  JS.truthy (listServices request) = false
  /\ JS.truthy (fileContainingSymbol request)
     || JS.truthy (fileByFilename request) = true
  /\ Forall (Forall (skipped decode (searchCondition request)))
       (fileDescriptorProtos st).
Proof.
  intros H. onData_by_cases decode st request; rewrite E in H; simpl in H;
    repeat (destruct H as [H | H]; try discriminate H); try contradiction.
  auto.
Qed.

(** X12. The response tells the branch: a [listServicesResponse] is
    written only by the ListServices branch, a [fileDescriptorResponse]
    only by a search, and an [errorResponse] carries [NOT_FOUND] after a
    search or [UNIMPLEMENTED] when no branch took the request, never
    another code. *)
Theorem response_kind_identifies_branch
    (decode : Buffer -> option FileDescriptorProto.t)
    (st : Registry) (request : Request) (o : Response) :
  In (call_write o) (trace (onData decode st request)) ->
  match o with
  | listServicesResponse entries =>
      dispatch request = ToListServices
      /\ entries = map listedName (services st)
  | fileDescriptorResponse _ =>
      dispatch request = ToFileContainingSymbol (fileContainingSymbol request)
      \/ dispatch request = ToFileByFilename (fileByFilename request)
  | errorResponse code =>
      (code = status.NOT_FOUND
       /\ (dispatch request
           = ToFileContainingSymbol (fileContainingSymbol request)
           \/ dispatch request = ToFileByFilename (fileByFilename request)))
      \/ (code = status.UNIMPLEMENTED /\ dispatch request = ToUnimplemented)
  end.
Proof.
  assert (Hsearch :
    JS.truthy (listServices request) = false ->
    JS.truthy (fileContainingSymbol request)
    || JS.truthy (fileByFilename request) = true ->
    dispatch request = ToFileContainingSymbol (fileContainingSymbol request)
    \/ dispatch request = ToFileByFilename (fileByFilename request)).
  { intros Hl Hs. unfold dispatch. rewrite Hl.
    destruct (JS.truthy (fileContainingSymbol request)); [now left|].
    simpl in Hs. rewrite Hs. now right. }
  intros H. onData_by_cases decode st request; rewrite E in H; simpl in H;
    repeat (destruct H as [H | H]; try discriminate H); try contradiction;
    injection H as <-; auto.
Qed.

(** X13. The listener throws in two situations only: a [TypeError] when
    a request is dispatched to ListServices and the registry holds a
    service definition without a method, a decoding failure when a search
    reaches a stored buffer that does not decode before any match. *)
Theorem listener_throws_only_on_bad_registry
    (decode : Buffer -> option FileDescriptorProto.t)
    (st : Registry) (request : Request) (e : Exn) :
  outcome (onData decode st request) = Throw e ->
  (e = TypeError
   /\ dispatch request = ToListServices
   /\ In [] (services st))
  \/ (e = MalformedSchema
      /\ JS.truthy (listServices request) = false
      /\ JS.truthy (fileContainingSymbol request)
         || JS.truthy (fileByFilename request) = true
      /\ exists groupsBefore bufsBefore proto bufsAfter groupsAfter,
           fileDescriptorProtos st
           = groupsBefore ++ (bufsBefore ++ proto :: bufsAfter) :: groupsAfter
           /\ Forall (Forall (skipped decode (searchCondition request)))
                groupsBefore
           /\ Forall (skipped decode (searchCondition request)) bufsBefore
           /\ decode proto = None).
Proof.
  intros H. onData_by_cases decode st request; rewrite E in H;
    try discriminate H; injection H as <-.
  - left. auto.
  - right. repeat split; trivial. exists gb, bb, p, ba, ga. auto.
Qed.

(** X14. When every stored buffer decodes, a search answers by the
    registry alone: if some stored buffer satisfies the test of the
    request, the answer is a registered group that holds such a buffer,
    and otherwise it is [NOT_FOUND]; the listener does not throw. *)
Theorem search_finds_what_is_registered
    (decode : Buffer -> option FileDescriptorProto.t)
    (st : Registry) (request : Request) :
  Forall (Forall (fun b => decode b <> None)) (fileDescriptorProtos st) ->
  JS.truthy (listServices request) = false ->
  JS.truthy (fileContainingSymbol request)
  || JS.truthy (fileByFilename request) = true ->
  ((exists group, In group (fileDescriptorProtos st)
                  /\ holdsMatch decode request group) ->
   exists group,
     In group (fileDescriptorProtos st)
     /\ holdsMatch decode request group
     /\ writes (trace (onData decode st request))
        = [fileDescriptorResponse group])
  /\ (~ (exists group, In group (fileDescriptorProtos st)
                       /\ holdsMatch decode request group) ->
      writes (trace (onData decode st request))
      = [errorResponse status.NOT_FOUND])
  /\ outcome (onData decode st request) = Done tt.
Proof.
  intros Hdec Hl Hs.
  destruct (onData_spec decode st request)
    as [(Hd & _) | [(Hd & _) | [(_ & _ & Hcases) | (Hd & _)]]];
    try (unfold dispatch in Hd; rewrite Hl in Hd;
         destruct (JS.truthy (fileContainingSymbol request));
         [discriminate Hd|]; simpl in Hs; rewrite Hs in Hd;
         discriminate Hd).
  destruct Hcases
    as [[Hall E]
       | [(gb & bb & p & ba & ga & d & Hsplit & Hgb & Hbb & Hp & Hm & E)
         | (gb & bb & p & ba & ga & Hsplit & Hgb & Hbb & Hp & E)]].
  - (* nothing matches *)
    rewrite E. repeat split; trivial.
    intros (g & Hg & b & d & Hb & Hd & Hm). exfalso.
    rewrite Forall_forall in Hall. specialize (Hall g Hg).
    rewrite Forall_forall in Hall.
    destruct (Hall b Hb) as (d' & Hd' & Hc). congruence.
  - (* a match *)
    assert (Hin : In (bb ++ p :: ba) (fileDescriptorProtos st))
      by (rewrite Hsplit; apply in_or_app; right; now left).
    assert (Hmatch : holdsMatch decode request (bb ++ p :: ba)).
    { exists p, d. repeat split; trivial.
      apply in_or_app. right. now left. }
    rewrite E. repeat split; trivial.
    + intros _. exists (bb ++ p :: ba). auto.
    + intros Hno. exfalso. apply Hno. eauto.
  - (* a buffer that does not decode *)
    exfalso. rewrite Hsplit in Hdec.
    apply Forall_app in Hdec as [_ Hdec].
    inversion Hdec as [|? ? Hg _]; subst.
    apply Forall_app in Hg as [_ Hg].
    inversion Hg as [|? ? Hbad _]; subst. contradiction.
Qed.

(** ** The stream, whatever its events *)

Lemma emit_writes
    (decode : Buffer -> option FileDescriptorProto.t)
    (st : Registry) (ev : Event) :
  List.length (writes (trace (emit decode st ev)))
  <= List.length (requests [ev])
  /\ (outcome (emit decode st ev) = Done tt ->
      List.length (writes (trace (emit decode st ev)))
      = List.length (requests [ev])).
Proof.
  destruct ev as [r| |]; cbn [emit requests]; [|simpl; auto ..].
  onData_by_cases decode st r; rewrite E; simpl;
    split; solve [lia | reflexivity | discriminate].
Qed.

Lemma requests_cons (ev : Event) (events : list Event) :
  List.length (requests (ev :: events))
  = List.length (requests [ev]) + List.length (requests events).
Proof. destruct ev; reflexivity. Qed.

Lemma deliver_writes
    (decode : Buffer -> option FileDescriptorProto.t)
    (st : Registry) (events : list Event) :
  List.length (writes (trace (deliver decode st events)))
  <= List.length (requests events)
  /\ (outcome (deliver decode st events) = Done tt ->
      List.length (writes (trace (deliver decode st events)))
      = List.length (requests events)).
Proof.
  induction events as [|ev events [IHle IHeq]]; [simpl; auto|].
  rewrite requests_cons. cbn [deliver].
  destruct (emit_writes decode st ev) as [Hle Heq].
  destruct (emit decode st ev) as [t [[]|e]] eqn:E; cbn [bind].
  - destruct (deliver decode st events) as [t' r'].
    cbn [trace outcome fst snd] in *. rewrite writes_app, length_app.
    split; [lia|]. intros Hr. rewrite (Heq eq_refl), (IHeq Hr). reflexivity.
  - cbn [trace outcome fst snd] in *. split; [lia | discriminate].
Qed.

(** X15. On any stream, whatever the order of its requests, ends and
    cancellations, the session never writes more responses than it was
    handed requests, and when no listener throws it writes exactly as
    many. *)
Theorem session_writes_at_most_one_response_per_request
    (decode : Buffer -> option FileDescriptorProto.t)
    (st : Registry) (events : list Event) :
  List.length (writes (trace (ServerReflectionInfo decode st events)))
  <= List.length (requests events)
  /\ (outcome (ServerReflectionInfo decode st events) = Done tt ->
      List.length (writes (trace (ServerReflectionInfo decode st events)))
      = List.length (requests events)).
Proof.
  destruct (deliver_writes decode st events) as [Hle Heq].
  unfold ServerReflectionInfo. cbn [perform bind].
  destruct (deliver decode st events) as [t r].
  cbn [trace outcome fst snd app writes] in *. auto.
Qed.

(** X16. When the stream ends after events none of which made a listener
    throw, the session ends the call once, after everything it wrote, logs
    the end and writes no response for it. *)
Theorem end_of_stream_ends_the_call
    (decode : Buffer -> option FileDescriptorProto.t)
    (st : Registry) (events : list Event) :
  outcome (ServerReflectionInfo decode st events) = Done tt ->
  ServerReflectionInfo decode st (events ++ [end_])
  = (trace (ServerReflectionInfo decode st events)
     ++ [call_end; console_log LogEnded], Done tt)
  /\ writes (trace (ServerReflectionInfo decode st (events ++ [end_])))
     = writes (trace (ServerReflectionInfo decode st events)).
Proof.
  intros H.
  assert (Hd : outcome (deliver decode st events) = Done tt).
  { revert H. unfold ServerReflectionInfo. cbn [perform bind].
    now destruct (deliver decode st events). }
  assert (E : ServerReflectionInfo decode st (events ++ [end_])
              = (trace (ServerReflectionInfo decode st events)
                 ++ [call_end; console_log LogEnded], Done tt)).
  { unfold ServerReflectionInfo. rewrite (deliver_app decode st _ _ Hd).
    destruct (deliver decode st events) as [t r]. reflexivity. }
  split; [exact E|].
  rewrite E. cbn [trace fst]. rewrite writes_app. simpl. apply app_nil_r.
Qed.

(** ** The listed names *)

Lemma split_shape (sep : ascii) (p : string) :
  (JS.occurs sep p = false /\ JS.split sep p = [p])
  \/ (exists a rest,
        p = (a ++ String sep rest)%string
        /\ JS.occurs sep a = false
        /\ JS.split sep p = a :: JS.split sep rest).
Proof.
  induction p as [|c p IH].
  - left. split; reflexivity.
  - cbn [JS.split JS.occurs]. destruct (Ascii.eqb c sep) eqn:Hc.
    + apply Ascii.eqb_eq in Hc. subst c.
      right. exists ""%string, p. repeat split.
    + destruct IH as [[Hocc E] | (a & rest & -> & Hocc & E)]; rewrite E.
      * left. split; [exact Hocc | reflexivity].
      * right. exists (String c a), rest. repeat split.
        cbn [JS.occurs]. now rewrite Hc.
Qed.

(** [p.split(sep).join(sep)] is [p]. *)
Lemma split_concat (sep : ascii) (p : string) :
  String.concat (String sep "") (JS.split sep p) = p.
Proof.
  induction p as [|c p IH]; [reflexivity|].
  cbn [JS.split]. destruct (Ascii.eqb c sep) eqn:Hc.
  - apply Ascii.eqb_eq in Hc. subst c.
    destruct (JS.split sep p) as [|h t] eqn:E.
    + destruct (split_shape sep p) as [[_ E'] | (? & ? & _ & _ & E')];
        congruence.
    + cbn [String.concat]. cbn [String.concat] in IH. now rewrite IH.
  - destruct (JS.split sep p) as [|h t] eqn:E.
    + destruct (split_shape sep p) as [[_ E'] | (? & ? & _ & _ & E')];
        congruence.
    + cbn [String.concat] in IH |- *. destruct t; simpl; now rewrite <- IH.
Qed.

(** The pieces of a split hold no separator, and there is one more piece
    than separators. *)
Lemma split_pieces (sep : ascii) (p : string) :
  Forall (fun piece => JS.occurs sep piece = false) (JS.split sep p)
  /\ List.length (JS.split sep p) = S (occurrences sep p).
Proof.
  induction p as [|c p [IHp IHn]]; [split; [now constructor | reflexivity]|].
  cbn [JS.split occurrences]. destruct (Ascii.eqb c sep) eqn:Hc.
  - split; [constructor; [reflexivity | exact IHp] | simpl; now rewrite IHn].
  - destruct (JS.split sep p) as [|h t]; [discriminate IHn|].
    inversion IHp as [|? ? Hh Ht]; subst.
    split; [|exact IHn].
    constructor; [|exact Ht]. cbn [JS.occurs]. now rewrite Hc, Hh.
Qed.

Lemma append_empty_r (s : string) : (s ++ "")%string = s.
Proof. induction s as [|c s IH]; simpl; [reflexivity | now rewrite IH]. Qed.

(** What [path.split('/')[1]] is. *)
Lemma second_piece (p : string) :
  (nth_error (JS.split "/" p) 1 = None <-> JS.occurs "/" p = false)
  /\ forall q,
       nth_error (JS.split "/" p) 1 = Some q ->
       JS.occurs "/" q = false
       /\ exists a rest,
            p = (a ++ "/" ++ q ++ rest)%string
            /\ JS.occurs "/" a = false
            /\ (rest = ""%string
                \/ exists rest', rest = ("/" ++ rest')%string).
Proof.
  destruct (split_shape "/" p) as [[Hocc E] | (a & rest & -> & Hocc & E)];
    rewrite E.
  - split; [split; trivial|]. discriminate.
  - assert (Hin : JS.occurs "/" (a ++ String "/" rest) = true).
    { clear. induction a as [|c a IH]; [reflexivity|].
      cbn [append JS.occurs]. rewrite IH. apply orb_true_r. }
    split; [split; intros H; [|congruence]|].
    + destruct (split_shape "/" rest) as [[_ E'] | (? & ? & _ & _ & E')];
        rewrite E' in H; discriminate.
    + intros q Hq.
      destruct (split_shape "/" rest)
        as [[Hocc' E'] | (q' & rest' & -> & Hocc' & E')];
        rewrite E' in Hq; injection Hq as <-.
      * split; [exact Hocc'|]. exists a, ""%string. repeat split; auto.
        now rewrite append_empty_r.
      * split; [exact Hocc'|].
        exists a, (String "/" rest'). repeat split; auto.
        right. now exists rest'.
Qed.

(** X17. In the response of ListServices the entry of a service is what
    stands between the first and the second slash of the path of its first
    method: it holds no slash, it is [undefined] exactly when the path has
    no slash, and it runs to the end of the path when there is no second
    slash. *)
Theorem listed_name_is_second_piece_of_path
    (decode : Buffer -> option FileDescriptorProto.t)
    (svcs : list ServiceDefinition) (st : Registry) (request : Request)
    (entries : list (option string)) :
  serving svcs st ->
  In (call_write (listServicesResponse entries))
     (trace (onData decode st request)) ->
  Forall2
    (fun s entry =>
       exists m,
         consulted s = Some m
         /\ (entry = None <-> JS.occurs "/" (MethodDefinition.path m) = false)
         /\ forall q,
              entry = Some q ->
              JS.occurs "/" q = false
              /\ exists a rest,
                   MethodDefinition.path m = (a ++ "/" ++ q ++ rest)%string
                   /\ JS.occurs "/" a = false
                   /\ (rest = ""%string
                       \/ exists rest', rest = ("/" ++ rest')%string))
    svcs entries.
Proof.
  intros Hserving Hin.
  apply registerAll_Done in Hserving as (Hne & Hreg & _). simpl in Hreg.
  assert (Hentries : entries = map listedName (services st)).
  { onData_by_cases decode st request; rewrite E in Hin; simpl in Hin;
      repeat (destruct Hin as [Hin | Hin]; try discriminate Hin);
      try contradiction.
    now injection Hin as <-. }
  rewrite Hentries, Hreg. clear Hreg Hentries Hin.
  induction Hne as [|s svcs Hs _ IH]; [constructor|].
  cbn [map]. constructor; [|exact IH].
  destruct s as [|[key m] rest]; [congruence|].
  exists m. split; [reflexivity|].
  cbn [listedName]. apply second_piece.
Qed.

(** ** The greeter *)

(** X18. [sayHello] never reports an error, and its reply tells the name
    it greets: two requests get the same reply exactly when their names
    read the same in a template, so that distinct names get distinct
    replies, and a request without a name is greeted like the name
    ["undefined"]. *)
Theorem sayHello_reply_tells_the_name (request request' : HelloRequest.t) :
  fst (sayHello request) = None
  /\ (sayHello request = sayHello request'
      <-> JS.template (HelloRequest.name request)
          = JS.template (HelloRequest.name request'))
  /\ sayHello (HelloRequest.mk None)
     = sayHello (HelloRequest.mk (Some "undefined")).
Proof.
  split; [reflexivity|]. split; [|reflexivity].
  unfold sayHello. split.
  - intros H. injection H as H. exact H.
  - intros ->. reflexivity.
Qed.

(** ** Symbols and packages *)

Lemma prefix_append (p s : string) : String.prefix p (p ++ s) = true.
Proof.
  induction p as [|c p IH]; [now destruct s|].
  cbn [append String.prefix].
  destruct (ascii_dec c c) as [_|Hne]; [exact IH | congruence].
Qed.

(** X19. A symbol matches a decoded descriptor only if it begins with
    the package of the descriptor. *)
Theorem matching_symbol_begins_with_package
    (fdp : FileDescriptorProto.t) (symbol : string) :
  symbolMatch fdp (Some symbol) = true ->
  String.prefix (FileDescriptorProto.package fdp) symbol = true.
Proof.
  intros H. apply symbolMatch_declares in H as [<- | (x & _ & <-)].
  - rewrite <- (append_empty_r (FileDescriptorProto.package fdp)) at 2.
    apply prefix_append.
  - unfold qualifiedName.
    destruct (String.eqb_spec (FileDescriptorProto.package fdp) "") as [E|_].
    + rewrite E. now destruct (Named.name x).
    + apply prefix_append.
Qed.

(** ** Registered groups *)

Lemma In_descriptorGroups
    (svcs : list ServiceDefinition) (group : list Buffer) :
  In group (descriptorGroups svcs)
  <-> exists s, In s svcs /\ schemaBuffers s = Some group.
Proof.
  induction svcs as [|s svcs IH]; cbn [descriptorGroups].
  - split; [contradiction | intros (s & [] & _)].
  - destruct (schemaBuffers s) as [g|] eqn:E.
    + split.
      * intros [<- | Hin]; [exists s; split; [now left | exact E]|].
        apply IH in Hin as (s' & Hs' & E'). exists s'.
        split; [now right | exact E'].
      * intros (s' & [<- | Hs'] & E').
        -- left. congruence.
        -- right. apply IH. now exists s'.
    + rewrite IH. split.
      * intros (s' & Hs' & E'). exists s'. split; [now right | exact E'].
      * intros (s' & [<- | Hs'] & E'); [congruence | now exists s'].
Qed.

(** X20. Every group the session sends was registered: a
    [fileDescriptorResponse] carries exactly the schema buffers of one of
    the registered services, as that service carried them. *)
Theorem fileDescriptorResponse_was_registered
    (decode : Buffer -> option FileDescriptorProto.t)
    (svcs : list ServiceDefinition) (st : Registry) (request : Request)
    (group : list Buffer) :
  serving svcs st ->
  In (call_write (fileDescriptorResponse group))
     (trace (onData decode st request)) ->
  exists s, In s svcs /\ schemaBuffers s = Some group.
Proof.
  intros Hserving Hin.
  apply registerAll_Done in Hserving as (_ & _ & Hfd). simpl in Hfd.
  apply In_descriptorGroups. rewrite <- Hfd.
  onData_by_cases decode st request; rewrite E in Hin; simpl in Hin;
    repeat (destruct Hin as [Hin | Hin]; try discriminate Hin);
    try contradiction.
  injection Hin as <-. rewrite Hsplit.
  apply in_or_app. right. now left.
Qed.

(** X21. When no registered service carried a schema buffer (no group,
    or empty groups only), every search is answered [NOT_FOUND], and the
    decoder is not called: the answer is the same for every decoder. *)
Theorem search_without_buffers_is_not_found
    (decode : Buffer -> option FileDescriptorProto.t)
    (st : Registry) (request : Request) :
  Forall (fun group => group = []) (fileDescriptorProtos st) ->
  JS.truthy (listServices request) = false ->
  JS.truthy (fileContainingSymbol request)
  || JS.truthy (fileByFilename request) = true ->
  onData decode st request
  = ([console_log (LogData request);
      call_write (errorResponse status.NOT_FOUND);
      console_log LogSentNotFound], Done tt).
Proof.
  intros Hempty Hl Hs. apply onData_missing; trivial.
  apply scan_missing. eapply Forall_impl; [|exact Hempty].
  intros g ->. constructor.
Qed.

(** * The further properties on the example registry *)

(** X4 on the example: the greeter service, alone or with a second
    method that carries the descriptor of the echo service. *)
Lemma only_first_method_is_consulted_witness :
  onData Wire.decode
    (fst (registerAll emptyRegistry [Sample.greeterService]))
    (Sample.askSymbol "greeter.Echo")
  = onData Wire.decode
      (fst (registerAll emptyRegistry
              [Sample.greeterService
               ++ [("echo", Sample.method "/greeter.Echo/Echo"
                              (Some [Sample.echoProto]))]]))
      (Sample.askSymbol "greeter.Echo").
Proof.
  refine (only_first_method_is_consulted
            Wire.decode
            [Sample.greeterService]
            [Sample.greeterService
             ++ [("echo", Sample.method "/greeter.Echo/Echo"
                            (Some [Sample.echoProto]))]]
            _ _ (Sample.askSymbol "greeter.Echo") _ _ _).
  - repeat constructor.
  - reflexivity.
  - reflexivity.
Defined.

(** X5 on the example: the health service carries no schema buffers. *)
Lemma service_without_buffers_is_not_searched_witness :
  onData Wire.decode
    (fst (registerAll emptyRegistry
            ([Sample.greeterService] ++ [Sample.echoService])))
    (Sample.askSymbol "grpc.health.v1.Health")
  = onData Wire.decode Sample.registry
      (Sample.askSymbol "grpc.health.v1.Health").
Proof.
  refine (service_without_buffers_is_not_searched
            Wire.decode [Sample.greeterService] [Sample.echoService]
            Sample.healthService _ Sample.registry
            (Sample.askSymbol "grpc.health.v1.Health") _ _ _ _);
    reflexivity.
Defined.

(** X6 on the example: the services are listed alike with a decoder that
    always fails and a stored buffer that is truncated. *)
Lemma listServices_reads_no_descriptor_witness :
  onData Wire.decode Sample.registry (Sample.askListServices "*")
  = onData (fun _ => None)
      (mkRegistry (services Sample.registry) [[Sample.truncatedProto]])
      (Sample.askListServices "*").
Proof.
  refine (listServices_reads_no_descriptor
            Wire.decode (fun _ => None) Sample.registry
            (mkRegistry (services Sample.registry) [[Sample.truncatedProto]])
            (Sample.askListServices "*") _ _);
    reflexivity.
Defined.

(** X7 on the example: the registry left by the failed registration of a
    definition without a method. *)
Lemma listServices_throws_on_methodless_service_witness :
  onData Wire.decode
    (fst (registerAll emptyRegistry [Sample.greeterService; []]))
    (Sample.askListServices "*")
  = ([console_log (LogData (Sample.askListServices "*"))], Throw TypeError).
Proof.
  refine (listServices_throws_on_methodless_service
            Wire.decode
            (fst (registerAll emptyRegistry [Sample.greeterService; []]))
            (Sample.askListServices "*") _ _).
  - reflexivity.
  - right. left. reflexivity.
Defined.

(** X8 on the example: two requests dispatched to ListServices, with
    different values and different other fields. *)
Lemma answer_depends_on_dispatch_only_witness :
  tl (trace (onData Wire.decode Sample.registry
               (mkRequest (Some "*") (Some "greeter") None None None)))
  = tl (trace (onData Wire.decode Sample.registry
                 (mkRequest (Some "all") None (Some "echo.proto")
                    (Some "greeter.HelloRequest") None)))
  /\ outcome (onData Wire.decode Sample.registry
                (mkRequest (Some "*") (Some "greeter") None None None))
     = outcome (onData Wire.decode Sample.registry
                  (mkRequest (Some "all") None (Some "echo.proto")
                     (Some "greeter.HelloRequest") None)).
Proof.
  refine (answer_depends_on_dispatch_only
            Wire.decode Sample.registry
            (mkRequest (Some "*") (Some "greeter") None None None)
            (mkRequest (Some "all") None (Some "echo.proto")
               (Some "greeter.HelloRequest") None) _).
  reflexivity.
Defined.

(** X10 on the example: the group sent for ["greeter.Echo"]. *)
Lemma fileDescriptorResponse_is_a_matching_group_witness :
  JS.truthy (listServices (Sample.askSymbol "greeter.Echo")) = false
  /\ JS.truthy (fileContainingSymbol (Sample.askSymbol "greeter.Echo"))
     || JS.truthy (fileByFilename (Sample.askSymbol "greeter.Echo")) = true
  /\ exists groupsBefore bufsBefore proto bufsAfter groupsAfter fdp,
       fileDescriptorProtos Sample.registry
       = groupsBefore ++ [Sample.commonProto; Sample.echoProto] :: groupsAfter
       /\ [Sample.commonProto; Sample.echoProto]
          = bufsBefore ++ proto :: bufsAfter
       /\ Forall (Forall (skipped Wire.decode
                            (searchCondition (Sample.askSymbol "greeter.Echo"))))
            groupsBefore
       /\ Forall (skipped Wire.decode
                    (searchCondition (Sample.askSymbol "greeter.Echo")))
            bufsBefore
       /\ Wire.decode proto = Some fdp
       /\ searchCondition (Sample.askSymbol "greeter.Echo") fdp = true.
Proof.
  refine (fileDescriptorResponse_is_a_matching_group
            Wire.decode Sample.registry (Sample.askSymbol "greeter.Echo")
            [Sample.commonProto; Sample.echoProto] _).
  right. left. reflexivity.
Defined.

(** X11 on the example: ["nope.Nope"] is not found. *)
Lemma not_found_means_all_buffers_rejected_witness :
  JS.truthy (listServices (Sample.askSymbol "nope.Nope")) = false
  /\ JS.truthy (fileContainingSymbol (Sample.askSymbol "nope.Nope"))
     || JS.truthy (fileByFilename (Sample.askSymbol "nope.Nope")) = true
  /\ Forall (Forall (skipped Wire.decode
                       (searchCondition (Sample.askSymbol "nope.Nope"))))
       (fileDescriptorProtos Sample.registry).
Proof.
  refine (not_found_means_all_buffers_rejected
            Wire.decode Sample.registry (Sample.askSymbol "nope.Nope") _).
  right. left. reflexivity.
Defined.

(** X12 on the example: a list of services and an [UNIMPLEMENTED]. *)
Lemma response_kind_identifies_branch_witness :
  (dispatch (Sample.askListServices "*") = ToListServices
   /\ [Some "greeter.Greeter"; Some "grpc.health.v1.Health";
       Some "greeter.Echo"]%string
      = map listedName (services Sample.registry))
  /\ ((status.UNIMPLEMENTED = status.NOT_FOUND
       /\ (dispatch (Sample.askExtension "x")
           = ToFileContainingSymbol
               (fileContainingSymbol (Sample.askExtension "x"))
           \/ dispatch (Sample.askExtension "x")
              = ToFileByFilename (fileByFilename (Sample.askExtension "x"))))
      \/ (status.UNIMPLEMENTED = status.UNIMPLEMENTED
          /\ dispatch (Sample.askExtension "x") = ToUnimplemented)).
Proof.
  split.
  - refine (response_kind_identifies_branch
              Wire.decode Sample.registry (Sample.askListServices "*")
              (listServicesResponse
                 [Some "greeter.Greeter"; Some "grpc.health.v1.Health";
                  Some "greeter.Echo"]%string) _).
    right. left. reflexivity.
  - refine (response_kind_identifies_branch
              Wire.decode Sample.registry (Sample.askExtension "x")
              (errorResponse status.UNIMPLEMENTED) _).
    right. left. reflexivity.
Defined.

(** X13 on the example: the truncated buffer of the broken registry. *)
Lemma listener_throws_only_on_bad_registry_witness :
  (MalformedSchema = TypeError
   /\ dispatch (Sample.askSymbol "greeter.Echo") = ToListServices
   /\ In [] (services Sample.brokenRegistry))
  \/ (MalformedSchema = MalformedSchema
      /\ JS.truthy (listServices (Sample.askSymbol "greeter.Echo")) = false
      /\ JS.truthy (fileContainingSymbol (Sample.askSymbol "greeter.Echo"))
         || JS.truthy (fileByFilename (Sample.askSymbol "greeter.Echo"))
         = true
      /\ exists groupsBefore bufsBefore proto bufsAfter groupsAfter,
           fileDescriptorProtos Sample.brokenRegistry
           = groupsBefore ++ (bufsBefore ++ proto :: bufsAfter) :: groupsAfter
           /\ Forall (Forall (skipped Wire.decode
                                (searchCondition
                                   (Sample.askSymbol "greeter.Echo"))))
                groupsBefore
           /\ Forall (skipped Wire.decode
                        (searchCondition (Sample.askSymbol "greeter.Echo")))
                bufsBefore
           /\ Wire.decode proto = None).
Proof.
  refine (listener_throws_only_on_bad_registry
            Wire.decode Sample.brokenRegistry
            (Sample.askSymbol "greeter.Echo") MalformedSchema _).
  reflexivity.
Defined.

(** X14 on the example: every buffer of the registry decodes;
    ["echo.proto"] names a stored buffer, ["x"] names none. *)
Lemma search_finds_what_is_registered_witness :
  (exists group,
     In group (fileDescriptorProtos Sample.registry)
     /\ holdsMatch Wire.decode (Sample.askFilename "echo.proto") group
     /\ writes (trace (onData Wire.decode Sample.registry
                         (Sample.askFilename "echo.proto")))
        = [fileDescriptorResponse group])
  /\ writes (trace (onData Wire.decode Sample.registry
                      (Sample.askFilename "x")))
     = [errorResponse status.NOT_FOUND].
Proof.
  assert (Hdec : Forall (Forall (fun b => Wire.decode b <> None))
                   (fileDescriptorProtos Sample.registry))
    by (repeat constructor; discriminate).
  split.
  - refine (proj1 (search_finds_what_is_registered
                     Wire.decode Sample.registry
                     (Sample.askFilename "echo.proto") Hdec _ _) _);
      try reflexivity.
    exists [Sample.commonProto; Sample.echoProto].
    split; [right; left; reflexivity|].
    exists Sample.echoProto. eexists.
    split; [right; left; reflexivity|]. split; reflexivity.
  - refine (proj1 (proj2 (search_finds_what_is_registered
                            Wire.decode Sample.registry
                            (Sample.askFilename "x") Hdec _ _)) _);
      try reflexivity.
    intros (g & Hg & b & d & Hb & Hd & Hm).
    simpl in Hg.
    destruct Hg as [<- | [<- | []]]; simpl in Hb;
      repeat (destruct Hb as [<- | Hb];
              [vm_compute in Hd; injection Hd as <-;
               vm_compute in Hm; discriminate Hm|]);
      contradiction.
Defined.

(** X16 on the example: a request, a cancellation, the end. *)
Lemma end_of_stream_ends_the_call_witness :
  ServerReflectionInfo Wire.decode Sample.registry
    ([data (Sample.askSymbol "nope.Nope"); cancelled] ++ [end_])
  = (trace (ServerReflectionInfo Wire.decode Sample.registry
              [data (Sample.askSymbol "nope.Nope"); cancelled])
     ++ [call_end; console_log LogEnded], Done tt)
  /\ writes (trace (ServerReflectionInfo Wire.decode Sample.registry
                      ([data (Sample.askSymbol "nope.Nope"); cancelled]
                       ++ [end_])))
     = writes (trace (ServerReflectionInfo Wire.decode Sample.registry
                        [data (Sample.askSymbol "nope.Nope"); cancelled])).
Proof.
  refine (end_of_stream_ends_the_call
            Wire.decode Sample.registry
            [data (Sample.askSymbol "nope.Nope"); cancelled] _).
  reflexivity.
Defined.

(** X17 on the example: a path without a slash lists [undefined], a
    path with one slash lists all that follows it. *)
Lemma listed_name_is_second_piece_of_path_witness :
  Forall2
    (fun s entry =>
       exists m,
         consulted s = Some m
         /\ (entry = None <-> JS.occurs "/" (MethodDefinition.path m) = false)
         /\ forall q,
              entry = Some q ->
              JS.occurs "/" q = false
              /\ exists a rest,
                   MethodDefinition.path m = (a ++ "/" ++ q ++ rest)%string
                   /\ JS.occurs "/" a = false
                   /\ (rest = ""%string
                       \/ exists rest', rest = ("/" ++ rest')%string))
    [[("run", MethodDefinition.mk "Run" None)];
     [("run", MethodDefinition.mk "jobs/Run" None)];
     Sample.greeterService]
    [None; Some "Run"; Some "greeter.Greeter"]%string.
Proof.
  refine (listed_name_is_second_piece_of_path
            Wire.decode
            [[("run", MethodDefinition.mk "Run" None)];
             [("run", MethodDefinition.mk "jobs/Run" None)];
             Sample.greeterService]
            (fst (registerAll emptyRegistry
                    [[("run", MethodDefinition.mk "Run" None)];
                     [("run", MethodDefinition.mk "jobs/Run" None)];
                     Sample.greeterService]))
            (Sample.askListServices "*")
            [None; Some "Run"; Some "greeter.Greeter"]%string _ _).
  - reflexivity.
  - right. left. reflexivity.
Defined.

(** X19 on the example: ["greeter.Echo"] and the descriptor of the echo
    service. *)
Lemma matching_symbol_begins_with_package_witness :
  String.prefix "greeter" "greeter.Echo" = true.
Proof.
  refine (matching_symbol_begins_with_package
            (FileDescriptorProto.mk "echo.proto" "greeter"
               [Named.mk "EchoRequest"] [] [Named.mk "Echo"])
            "greeter.Echo" _).
  reflexivity.
Defined.

(** X20 on the example: the group sent for ["Level"] is the one the echo
    service carried. *)
Lemma fileDescriptorResponse_was_registered_witness :
  exists s,
    In s [Sample.greeterService; Sample.healthService; Sample.echoService]
    /\ schemaBuffers s = Some [Sample.commonProto; Sample.echoProto].
Proof.
  refine (fileDescriptorResponse_was_registered
            Wire.decode
            [Sample.greeterService; Sample.healthService; Sample.echoService]
            Sample.registry (Sample.askSymbol "Level")
            [Sample.commonProto; Sample.echoProto] _ _).
  - reflexivity.
  - right. left. reflexivity.
Defined.

(** X21 on the example: the health service alone, which carries no
    schema buffers, and a decoder that always fails. *)
Lemma search_without_buffers_is_not_found_witness :
  onData (fun _ => None)
    (fst (registerAll emptyRegistry [Sample.healthService]))
    (Sample.askSymbol "grpc.health.v1.Health")
  = ([console_log (LogData (Sample.askSymbol "grpc.health.v1.Health"));
      call_write (errorResponse status.NOT_FOUND);
      console_log LogSentNotFound], Done tt).
Proof.
  refine (search_without_buffers_is_not_found
            (fun _ => None)
            (fst (registerAll emptyRegistry [Sample.healthService]))
            (Sample.askSymbol "grpc.health.v1.Health") _ _ _);
    try reflexivity.
  constructor.
Defined.
